(** * Character render system of midgarts: a shallow embedding

    The embedded file is [internal/system/character_render_system.go]:
    [renderCharacter], [renderAttachment], [renderLayer] and
    [renderSpriteCommand], and the registry of characters around them:
    [NewCharacterRenderSystem], [Update], [Add], [AddByInterface] and
    [Remove].

    Go's [int] and [int64] are 64-bit two's-complement integers, modelled as
    [Z] with the wrap-around written at every arithmetic site.  [float32] and
    [float64] are IEEE 754 binary32 and binary64, modelled with the Standard
    Library's [spec_float] at precisions 24 and 53.  Run-time panics and
    [log.Fatal] are outcomes of their own. *)

From Stdlib Require Import ZArith List Bool Lia SpecFloat.
From Stdlib Require String Ascii DecimalString DecimalPos DecimalZ.
Import ListNotations.
Open Scope Z_scope.

(** ** Go integers *)

Module GoInt.

Definition wrap64 (z : Z) : Z := (z + 2 ^ 63) mod 2 ^ 64 - 2 ^ 63.

Definition in_int64 (z : Z) : Prop := - 2 ^ 63 <= z < 2 ^ 63.

Definition add64 (a b : Z) : Z := wrap64 (a + b).
Definition sub64 (a b : Z) : Z := wrap64 (a - b).
Definition mul64 (a b : Z) : Z := wrap64 (a * b).

(** [a / b] on int64 for [b <> 0] (the caller models the panic on zero):
    truncated division; [MinInt64 / -1] wraps. *)
Definition quot64 (a b : Z) : Z := wrap64 (Z.quot a b).

(** [a % b] on int64 for [b <> 0]: the sign follows the dividend. *)
Definition rem64 (a b : Z) : Z := Z.rem a b.

(** [len(s)] *)
Definition len {A : Type} (l : list A) : Z := Z.of_nat (length l).

(** [s[i]], [None] standing for the index-out-of-range panic. *)
Definition index {A : Type} (l : list A) (i : Z) : option A :=
  if i <? 0 then None else nth_error l (Z.to_nat i).

End GoInt.
Export GoInt.

(** ** Go floating point *)

Module GoFloat.

Definition float32 : Type := spec_float.
Definition float64 : Type := spec_float.

Definition prec32 : Z := 24.
Definition emax32 : Z := 128.
Definition prec64 : Z := 53.
Definition emax64 : Z := 1024.

(** Conversions of an integer to a float: round to nearest, ties to even. *)
Definition f32_of_int (z : Z) : float32 := binary_normalize prec32 emax32 z 0 false.
Definition f64_of_int (z : Z) : float64 := binary_normalize prec64 emax64 z 0 false.

Definition signed (s : bool) (m : positive) : Z := cond_Zopp s (Zpos m).

(** [float64(x)] for a float32 [x]: exact, the mantissa is re-aligned. *)
Definition f64_of_f32 (x : float32) : float64 :=
  match x with
  | S754_finite s m e => binary_normalize prec64 emax64 (signed s m) e s
  | _ => x
  end.

(** [float32(x)] for a float64 [x]: rounds. *)
Definition f32_of_f64 (x : float64) : float32 :=
  match x with
  | S754_finite s m e => binary_normalize prec32 emax32 (signed s m) e s
  | _ => x
  end.

Definition f32_add : float32 -> float32 -> float32 := SFadd prec32 emax32.
Definition f32_sub : float32 -> float32 -> float32 := SFsub prec32 emax32.
Definition f32_mul : float32 -> float32 -> float32 := SFmul prec32 emax32.
Definition f64_mul : float64 -> float64 -> float64 := SFmul prec64 emax64.
Definition f64_div : float64 -> float64 -> float64 := SFdiv prec64 emax64.

(** The integer part of a finite float, fraction discarded. *)
Definition truncate (x : spec_float) : option Z :=
  match x with
  | S754_zero _ => Some 0
  | S754_finite s m e =>
      Some (cond_Zopp s
              match e with
              | Z0 => Zpos m
              | Zpos _ => Zpos m * 2 ^ e
              | Zneg p => Zpos m / 2 ^ Zpos p
              end)
  | _ => None
  end.

(** [int64(x)] for a float [x].  When the truncated value does not fit (or
    [x] is NaN or infinite) Go leaves the result to the implementation: it is
    the argument [undefined], a function of [x]. *)
Definition int64_of_float (undefined : spec_float -> Z) (x : spec_float) : Z :=
  match truncate x with
  | Some z => if (- 2 ^ 63 <=? z) && (z <? 2 ^ 63) then z else undefined x
  | None => undefined x
  end.

Definition is_pos_inf (x : spec_float) : bool :=
  match x with S754_infinity false => true | _ => false end.

Definition is_nan (x : spec_float) : bool :=
  match x with S754_nan => true | _ => false end.

Definition is_zero (x : spec_float) : bool :=
  match x with S754_zero _ => true | _ => false end.

Definition signbit (x : spec_float) : bool :=
  match x with
  | S754_zero s | S754_infinity s | S754_finite s _ _ => s
  | S754_nan => false
  end.

(** [math.Max(x, y)] with its special cases, in the order of the library. *)
Definition Max (x y : float64) : float64 :=
  if is_pos_inf x || is_pos_inf y then S754_infinity false
  else if is_nan x || is_nan y then S754_nan
  else if is_zero x && SFeqb x y then (if signbit x then y else x)
  else if SFltb y x then x
  else y.

(** A mantissa below [2 ^ 53] shifted left to 53 digits, with the exponent
    that keeps its value: the binary64 form of a small integer. *)
Definition aligned (p : positive) : positive * Z :=
  shl_align p 0 (Zpos (digits2_pos p) - 53).

(** [math.Pi / 180] as the float64 constant the compiler produces. *)
Definition PiOver180 : float64 := S754_finite false 5030569068109113 (-58).

End GoFloat.
Export GoFloat.

(** ** Outcomes of a call *)

(** A call returns, panics at run time (index out of range, integer division
    by zero) or ends the process through [log.Fatal]. *)
Inductive Outcome (A : Type) : Type :=
| Ok (a : A)
| Panic
| Fatal.

Arguments Ok {A} a.
Arguments Panic {A}.
Arguments Fatal {A}.

Definition bind {A B : Type} (c : Outcome A) (k : A -> Outcome B) : Outcome B :=
  match c with
  | Ok a => k a
  | Panic => Panic
  | Fatal => Fatal
  end.

Definition orPanic {A : Type} (o : option A) : Outcome A :=
  match o with
  | Some a => Ok a
  | None => Panic
  end.

Declare Scope outcome_scope.
Delimit Scope outcome_scope with outcome.
Notation "x <- c ;; k" := (bind c (fun x => k))
  (at level 100, c at next level, right associativity) : outcome_scope.
Open Scope outcome_scope.

(** ** Decoded assets: packages [act] and [spr] *)

Module act.

(** A layer as the ACT format stores it: integer sprite index, position and
    angle (in degrees), a float32 scale per axis, a mirror flag. *)
Record ActionFrameLayer : Type := {
  SpriteFrameIndex : Z;
  Scale : float32 * float32;
  Angle : Z;
  Position : Z * Z;
  Mirrored : bool
}.

Record ActionFrame : Type := {
  Layers : list ActionFrameLayer;
  Positions : list (Z * Z)
}.

(** [Delay] holds the value of [float64(action.Delay)];
    [DurationMilliseconds] the value of
    [time.Duration(action.DurationMilliseconds)]. *)
Record Action : Type := {
  Frames : list ActionFrame;
  Delay : float64;
  DurationMilliseconds : Z
}.

End act.

Module spr.

(** A sprite frame: its size in pixels and its pixel data. *)
Record SpriteFrame : Type := {
  Width : Z;
  Height : Z;
  Data : list Z
}.

Record SpriteFile : Type := {
  Frames : list SpriteFrame
}.

End spr.

(** ** Attachments: package [character] *)

Module character.

Inductive AttachmentType : Type :=
| AttachmentShadow
| AttachmentShield
| AttachmentBody
| AttachmentHead.

Definition eqb (a b : AttachmentType) : bool :=
  match a, b with
  | AttachmentShadow, AttachmentShadow
  | AttachmentShield, AttachmentShield
  | AttachmentBody, AttachmentBody
  | AttachmentHead, AttachmentHead => true
  | _, _ => false
  end.

End character.

(** ** What the file imports and this development takes as given *)

(** The declarations below live in packages of the repository (or of its
    dependencies) that the embedded file only uses: the direction table, the
    named action kinds and play mode, the pixel size, the sprite decoder's
    image accessor, the texture provider, the wall clock, and the value Go
    leaves to the implementation when a float does not fit an int64. *)
Class Imports : Type := {
  (** [mgl32.Vec3], the result of [char.Position()] *)
  Vec3 : Type;
  (** [*image.RGBA] *)
  RGBA : Type;
  (** the texture handle of package [graphic] *)
  graphicTexture : Type;
  (** [directiontype.DirectionTable], an [[8]int], as index to entry *)
  DirectionTable : Z -> Z;
  (** [graphic.OnePixelSize] *)
  OnePixelSize : float32;
  (** [actionindex.StandBy], [actionindex.Dead], [actionindex.Sitting] *)
  StandBy : Z;
  Dead : Z;
  Sitting : Z;
  (** [actionplaymode.Repeat] *)
  Repeat : Z;
  (** the method [ImageAt] of a sprite file *)
  ImageAt : spr.SpriteFile -> Z -> RGBA;
  (** [TextureProvider.NewTextureFromRGBA], taken as a function of the
      image; [None] is a returned error *)
  NewTextureFromRGBA : RGBA -> option graphicTexture;
  (** [time.Since(startedAt).Milliseconds()] at the n-th reading of the clock *)
  SinceMilliseconds : Z -> nat -> Z;
  (** the implementation-dependent result of an out-of-range [int64(x)] *)
  undefined_int64 : spec_float -> Z
}.

(** [time.Millisecond], in nanoseconds. *)
Definition Millisecond : Z := 1000000.

Definition SpriteScaleFactor : float32 := f32_of_int 100.
Definition FixedCameraDirection : Z := 6.

(** ** Entities and render commands *)

Module entity.
Section Character.
Context `{Imports}.

(** [ACT] holds [ACT.Actions]. *)
Record AttachmentFiles : Type := {
  ACT : list act.Action;
  SPR : spr.SpriteFile
}.

(** The fields of a character the render system reads, and
    [AnimationDelay], which it writes.  [Files] is bound for the four
    attachments when the character is added; [Position] is the result of
    [char.Position()]. *)
Record Character : Type := {
  Direction : Z;
  ActionIndex : Z;
  PlayMode : Z;
  HasShield : bool;
  FPSMultiplier : float64;
  ForcedDuration : Z;
  AnimationStartedAt : Z;
  AnimationDelay : Z;
  Files : character.AttachmentType -> AttachmentFiles;
  Position : Vec3
}.

Definition setAnimationDelay (c : Character) (d : Z) : Character :=
  {| Direction := Direction c;
     ActionIndex := ActionIndex c;
     PlayMode := PlayMode c;
     HasShield := HasShield c;
     FPSMultiplier := FPSMultiplier c;
     ForcedDuration := ForcedDuration c;
     AnimationStartedAt := AnimationStartedAt c;
     AnimationDelay := d;
     Files := Files c;
     Position := Position c |}.

End Character.
End entity.

Module rendercmd.
Section Command.
Context `{Imports}.

Record SpriteRenderCommand : Type := {
  Scale : float32 * float32;
  Size : float32 * float32;
  Position : Vec3;
  Offset : float32 * float32;
  RotationRadians : float32;
  Texture : graphicTexture;
  FlipVertically : bool
}.

End Command.
End rendercmd.

(** ** The render system: package [system] *)

Module system.
Section CharacterRenderSystem.
Context `{Imports}.

Import character.

(** What a call to [renderAttachment] reads and writes: the commands of
    [s.RenderCommands.sprite], the character (its [AnimationDelay] is
    assigned), the offset that [renderCharacter] passes by pointer, and the
    number of clock readings made so far. *)
Record State : Type := {
  sprite : list rendercmd.SpriteRenderCommand;
  char : entity.Character;
  offset : float32 * float32;
  clock : nat
}.

Definition zero2 : float32 * float32 := (S754_zero false, S754_zero false).

Definition int64 (x : spec_float) : Z := int64_of_float undefined_int64 x.

(** *** renderSpriteCommand (lines 220-222) *)

Definition renderSpriteCommand (cmd : rendercmd.SpriteRenderCommand) (st : State) : State :=
  {| sprite := sprite st ++ [cmd];
     char := char st;
     offset := offset st;
     clock := clock st |}.

(** *** renderLayer (lines 180-218) *)

(** Lines 202-205: the offset the command of a layer carries, for the
    position [renderAttachment] hands down. *)
Definition layerOffset (layer : act.ActionFrameLayer) (position : float32 * float32)
  : float32 * float32 :=
  (f32_mul (f32_mul (f32_add (f32_of_int (fst (act.Position layer))) (fst position))
                    OnePixelSize) SpriteScaleFactor,
   f32_mul (f32_mul (f32_add (f32_of_int (snd (act.Position layer))) (snd position))
                    OnePixelSize) SpriteScaleFactor).

Definition renderLayer (layer : act.ActionFrameLayer) (sprf : spr.SpriteFile)
    (position : float32 * float32) (st : State) : Outcome State :=
  let frameIndex := act.SpriteFrameIndex layer in
  if frameIndex <? 0 then Ok st
  else
    match NewTextureFromRGBA (ImageAt sprf frameIndex) with
    | None => Fatal
    | Some texture =>
        frame <- orPanic (index (spr.Frames sprf) frameIndex) ;;
        let width := f32_mul (f32_mul (f32_of_int (spr.Width frame)) SpriteScaleFactor)
                             (f32_mul (fst (act.Scale layer)) OnePixelSize) in
        let height := f32_mul (f32_mul (f32_of_int (spr.Height frame)) SpriteScaleFactor)
                              (f32_mul (snd (act.Scale layer)) OnePixelSize) in
        let rot := f64_mul (f64_of_int (act.Angle layer)) PiOver180 in
        Ok (renderSpriteCommand
              {| rendercmd.Scale := act.Scale layer;
                 rendercmd.Size := (width, height);
                 rendercmd.Position := entity.Position (char st);
                 rendercmd.Offset := layerOffset layer position;
                 rendercmd.RotationRadians := f32_of_f64 rot;
                 rendercmd.Texture := texture;
                 rendercmd.FlipVertically := act.Mirrored layer |} st)
    end.

(** The layers of a frame that are drawn. *)
Definition drawn (layers : list act.ActionFrameLayer) : list act.ActionFrameLayer :=
  filter (fun layer => negb (act.SpriteFrameIndex layer <? 0)) layers.

(** Lines 161-167: the loop over [frame.Layers]. *)
Fixpoint renderLayers (layers : list act.ActionFrameLayer) (sprf : spr.SpriteFile)
    (position : float32 * float32) (st : State) : Outcome State :=
  match layers with
  | [] => Ok st
  | layer :: rest =>
      if act.SpriteFrameIndex layer <? 0 then renderLayers rest sprf position st
      else
        st' <- renderLayer layer sprf position st ;;
        renderLayers rest sprf position st'
  end.

(** *** renderAttachment: the animation clock (lines 120-143) *)

(** Lines 122-127: the duration of one frame before the floor is applied. *)
Definition unclampedTimeForOneFrame (action : act.Action) (c : entity.Character)
  : Outcome Z :=
  let frameCount := len (act.Frames action) in
  let timeNeededForOneFrame :=
    int64 (f64_mul (act.Delay action) (f64_div (f64_of_int 1) (entity.FPSMultiplier c))) in
  if entity.ForcedDuration c =? 0 then Ok timeNeededForOneFrame
  else if frameCount =? 0 then Panic
  else Ok (quot64 (entity.ForcedDuration c) frameCount).

(** Line 129: [int64(math.Max(float64(t), 100))] *)
Definition floorAt100 (t : Z) : Z := int64 (Max (f64_of_int t) (f64_of_int 100)).

Definition timeNeededForOneFrame (action : act.Action) (c : entity.Character)
  : Outcome Z :=
  t <- unclampedTimeForOneFrame action c ;;
  Ok (floorAt100 t).

Definition elapsedTime (since : Z) (dt : float32) : Z := sub64 since (int64 dt).

(** Lines 131-143: from [realIndex] to the index after the doridori rule. *)
Definition frameIndex (playMode frameCount elapsedTime timeNeededForOneFrame : Z)
  : Outcome Z :=
  if timeNeededForOneFrame =? 0 then Panic
  else
    let realIndex := quot64 elapsedTime timeNeededForOneFrame in
    frameIndex <-
      (if playMode =? Repeat
       then if frameCount =? 0 then Panic else Ok (rem64 realIndex frameCount)
       else Ok 0) ;;
    Ok (if frameCount =? 3 then 0 else frameIndex).

(** Line 120: the action kind combined with the direction, before the
    reduction to the length of [actions]. *)
Definition compositeIndex (c : entity.Character) : Z :=
  add64 (entity.ActionIndex c)
        (rem64 (add64 (entity.Direction c) (DirectionTable FixedCameraDirection)) 8).

(** The index into [actions], of length [n]. *)
Definition actionIdx (c : entity.Character) (n : Z) : Z :=
  rem64 (compositeIndex c) n.

(** *** renderAttachment (lines 108-178) *)

Definition setOffset (o : float32 * float32) (st : State) : State :=
  {| sprite := sprite st; char := char st; offset := o; clock := clock st |}.

Definition tickClock (st : State) : State :=
  {| sprite := sprite st; char := char st; offset := offset st; clock := S (clock st) |}.

Definition setChar (c : entity.Character) (st : State) : State :=
  {| sprite := sprite st; char := c; offset := offset st; clock := clock st |}.

Definition anchor (p : Z * Z) : float32 * float32 :=
  (f32_of_int (fst p), f32_of_int (snd p)).

(** Lines 151-158: the position handed to [renderLayer]. *)
Definition layerPosition (frame : act.ActionFrame) (elem : AttachmentType)
    (offset : float32 * float32) : float32 * float32 :=
  match act.Positions frame with
  | p :: _ =>
      if negb (eqb elem AttachmentBody) && negb (eqb elem AttachmentShield)
      then (f32_sub (fst offset) (fst (anchor p)), f32_sub (snd offset) (snd (anchor p)))
      else zero2
  | [] => zero2
  end.

(** Lines 170-175: the offset saved for the next attachment. *)
Definition savedOffset (frame : act.ActionFrame) (offset : float32 * float32)
  : float32 * float32 :=
  match act.Positions frame with
  | p :: _ => anchor p
  | [] => offset
  end.

(** Lines 146-177: from the chosen frame to the end of [renderAttachment]. *)
Definition renderFrame (action : act.Action) (frame : act.ActionFrame)
    (elem : AttachmentType) (st : State) : Outcome State :=
  if len (act.Layers frame) =? 0 then Ok (setOffset zero2 st)
  else
    let position := layerPosition frame elem (offset st) in
    st' <- renderLayers (act.Layers frame) (entity.SPR (entity.Files (char st) elem))
                        position st ;;
    let st'' := setOffset (savedOffset frame (offset st')) st' in
    Ok (setChar (entity.setAnimationDelay (char st'')
                   (mul64 (act.DurationMilliseconds action) Millisecond)) st'').

(** Lines 120-146: the action and the frame [renderAttachment] settles on,
    with the state after the clock was read. *)
Definition resolveFrame (dt : float32) (elem : AttachmentType) (st : State)
  : Outcome (act.Action * act.ActionFrame * State) :=
  let c := char st in
  let actions := entity.ACT (entity.Files c elem) in
  action <- orPanic (index actions (actionIdx c (len actions))) ;;
  let frameCount := len (act.Frames action) in
  t <- timeNeededForOneFrame action c ;;
  let elapsed := elapsedTime (SinceMilliseconds (entity.AnimationStartedAt c) (clock st)) dt in
  i <- frameIndex (entity.PlayMode c) frameCount elapsed t ;;
  frame <- orPanic (index (act.Frames action) i) ;;
  Ok (action, frame, tickClock st).

Definition renderAttachment (dt : float32) (elem : AttachmentType) (st : State)
  : Outcome State :=
  if len (entity.ACT (entity.Files (char st) elem)) =? 0 then Ok st
  else
    r <- resolveFrame dt elem st ;;
    let '(action, frame, st') := r in
    renderFrame action frame elem st'.

(** *** renderCharacter (lines 85-106) *)

Definition direction (c : entity.Character) : Z :=
  add64 (entity.Direction c) (rem64 (DirectionTable FixedCameraDirection) 8).

Definition behind (c : entity.Character) : bool :=
  (1 <? direction c) && (direction c <? 6).

Definition renderShield (c : entity.Character) : bool :=
  entity.HasShield c && (entity.ActionIndex c =? StandBy).

Definition when (b : bool) (f : State -> Outcome State) (st : State) : Outcome State :=
  if b then f st else Ok st.

Definition renderCharacter (dt : float32) (c : entity.Character)
    (commands : list rendercmd.SpriteRenderCommand) (reads : nat) : Outcome State :=
  let st := {| sprite := commands; char := c; offset := zero2; clock := reads |} in
  let behind := behind c in
  let renderShield := renderShield c in
  st <- when (negb (entity.ActionIndex c =? Dead) && negb (entity.ActionIndex c =? Sitting))
             (renderAttachment dt AttachmentShadow) st ;;
  st <- when (behind && renderShield) (renderAttachment dt AttachmentShield) st ;;
  st <- renderAttachment dt AttachmentBody st ;;
  st <- renderAttachment dt AttachmentHead st ;;
  when (negb behind && renderShield) (renderAttachment dt AttachmentShield) st.

(** [renderAttachment] for each attachment of a list, in order. *)
Fixpoint renderSequence (dt : float32) (elems : list AttachmentType) (st : State)
  : Outcome State :=
  match elems with
  | [] => Ok st
  | elem :: rest =>
      st' <- renderAttachment dt elem st ;;
      renderSequence dt rest st'
  end.

End CharacterRenderSystem.
End system.

(** ** A concrete setting *)

(** One choice of the imported declarations and one character with its four
    attachments, on which the model is run. *)
Module scenario.

Import character.

Definition table : list Z := [6; 5; 4; 3; 2; 1; 0; 7].

Definition imageOf (f : spr.SpriteFile) (i : Z) : list Z :=
  match index (spr.Frames f) i with
  | Some frame => spr.Data frame
  | None => []
  end.

(** Out-of-range conversions give the smallest int64, as the conversion
    instruction of amd64 does. *)
Definition importsWith (tbl : list Z) : Imports :=
  {| Vec3 := Z * Z * Z;
     RGBA := list Z;
     graphicTexture := list Z;
     DirectionTable := fun i => nth (Z.to_nat i) tbl 0;
     OnePixelSize := f32_of_int 1;
     StandBy := 32;
     Dead := 64;
     Sitting := 16;
     Repeat := 0;
     ImageAt := imageOf;
     NewTextureFromRGBA := fun img => Some img;
     SinceMilliseconds := fun startedAt n => 5000 + Z.of_nat n - startedAt;
     undefined_int64 := fun _ => - 2 ^ 63 |}.

Definition imports : Imports := importsWith table.

(** A table whose entry for the fixed camera direction is 1. *)
Definition importsShifted : Imports := importsWith [0; 0; 0; 0; 0; 0; 1; 0].

#[local] Existing Instance imports.

Definition one : float32 := f32_of_int 1.

Definition layerAt (x y : Z) : act.ActionFrameLayer :=
  {| act.SpriteFrameIndex := 0;
     act.Scale := (one, one);
     act.Angle := 0;
     act.Position := (x, y);
     act.Mirrored := false |}.

Definition actionOf (frames : list act.ActionFrame) : act.Action :=
  {| act.Frames := frames;
     act.Delay := f64_of_int 150;
     act.DurationMilliseconds := 150 |}.

Definition shadowFrame : act.ActionFrame :=
  {| act.Layers := [layerAt 0 0]; act.Positions := [] |}.
Definition shieldFrame : act.ActionFrame :=
  {| act.Layers := [layerAt 1 1]; act.Positions := [] |}.
Definition bodyFrame : act.ActionFrame :=
  {| act.Layers := [layerAt 0 0]; act.Positions := [(10, 5)] |}.
Definition headFrame : act.ActionFrame :=
  {| act.Layers := [layerAt 3 4]; act.Positions := [] |}.

Definition sheet (tag : Z) : spr.SpriteFile :=
  {| spr.Frames := [ {| spr.Width := 2; spr.Height := 3; spr.Data := [tag] |} ] |}.

Definition files (elem : AttachmentType) : entity.AttachmentFiles :=
  match elem with
  | AttachmentShadow =>
      {| entity.ACT := [actionOf [shadowFrame]]; entity.SPR := sheet 0 |}
  | AttachmentShield =>
      {| entity.ACT := [actionOf [shieldFrame]]; entity.SPR := sheet 1 |}
  | AttachmentBody =>
      {| entity.ACT := [actionOf [bodyFrame]]; entity.SPR := sheet 2 |}
  | AttachmentHead =>
      {| entity.ACT := [actionOf [headFrame]]; entity.SPR := sheet 3 |}
  end.

(** A character standing by with a shield, facing [facing], with a forced
    total duration [forced] (0 for none). *)
Definition knight (facing forced : Z) : entity.Character :=
  {| entity.Direction := facing;
     entity.ActionIndex := 32;
     entity.PlayMode := 0;
     entity.HasShield := true;
     entity.FPSMultiplier := f64_of_int 1;
     entity.ForcedDuration := forced;
     entity.AnimationStartedAt := 0;
     entity.AnimationDelay := 0;
     entity.Files := files;
     entity.Position := (7, 8, 9) |}.

(** The knight facing 7 under the shifted table. *)
Definition shiftedKnight : @entity.Character importsShifted :=
  @entity.Build_Character importsShifted 7 32 0 true (f64_of_int 1) 0 0 0 files (7, 8, 9).

Definition dt : float32 := f32_of_int 16.

Definition start (c : entity.Character) : system.State :=
  {| system.sprite := []; system.char := c; system.offset := system.zero2;
     system.clock := 0 |}.

(** The state of an outcome, or [otherwise] when the call did not return. *)
Definition run (r : Outcome system.State) (otherwise : system.State) : system.State :=
  match r with
  | Ok st => st
  | _ => otherwise
  end.

(** The knight facing the camera: Body, then Head. *)
Definition st0 : system.State := start (knight 0 0).
Definition afterBody : system.State :=
  run (system.renderAttachment dt AttachmentBody st0) st0.
Definition afterHead : system.State :=
  run (system.renderAttachment dt AttachmentHead afterBody) afterBody.

(** The same knight with a forced total duration of one second. *)
Definition hurried : system.State := start (knight 0 1000).
Definition afterHurriedBody : system.State :=
  run (system.renderAttachment dt AttachmentBody hurried) hurried.

(** An action of delay 9800 on a character with FPS multiplier 49. *)
Definition longAction : act.Action :=
  {| act.Frames := [bodyFrame];
     act.Delay := f64_of_int 9800;
     act.DurationMilliseconds := 9800 |}.

Definition sprinter : entity.Character :=
  {| entity.Direction := 0;
     entity.ActionIndex := 32;
     entity.PlayMode := 0;
     entity.HasShield := false;
     entity.FPSMultiplier := f64_of_int 49;
     entity.ForcedDuration := 0;
     entity.AnimationStartedAt := 0;
     entity.AnimationDelay := 0;
     entity.Files := files;
     entity.Position := (0, 0, 0) |}.

(** An action table of five entries and an action of four frames. *)
Definition fiveActions : list act.Action :=
  [actionOf [bodyFrame]; actionOf [headFrame]; actionOf [shadowFrame];
   actionOf [shieldFrame]; actionOf [bodyFrame]].
Definition fourFrames : act.Action :=
  actionOf [bodyFrame; headFrame; shadowFrame; shieldFrame].

(** A head whose action has three frames (delay 100), on a character in
    play mode Repeat; and the same character in another play mode, with a
    body of four frames. *)
Definition fidget : act.Action :=
  {| act.Frames := [bodyFrame; headFrame; shadowFrame];
     act.Delay := f64_of_int 100;
     act.DurationMilliseconds := 300 |}.

Definition nodFiles (elem : AttachmentType) : entity.AttachmentFiles :=
  match elem with
  | AttachmentHead => {| entity.ACT := [fidget]; entity.SPR := sheet 3 |}
  | AttachmentBody => {| entity.ACT := [fourFrames]; entity.SPR := sheet 2 |}
  | _ => files elem
  end.

Definition nodder (playMode : Z) : entity.Character :=
  {| entity.Direction := 0;
     entity.ActionIndex := 32;
     entity.PlayMode := playMode;
     entity.HasShield := false;
     entity.FPSMultiplier := f64_of_int 1;
     entity.ForcedDuration := 0;
     entity.AnimationStartedAt := 0;
     entity.AnimationDelay := 0;
     entity.Files := nodFiles;
     entity.Position := (0, 0, 0) |}.

(** The textures of the commands of an outcome, in order. *)
Definition textures (r : Outcome system.State) : option (list (list Z)) :=
  match r with
  | Ok st => Some (map rendercmd.Texture (system.sprite st))
  | _ => None
  end.

(** The offsets of the commands of an outcome, in order. *)
Definition offsets (r : Outcome system.State) : option (list (float32 * float32)) :=
  match r with
  | Ok st => Some (map rendercmd.Offset (system.sprite st))
  | _ => None
  end.

End scenario.

(** ** The order of the attachments *)

Module order.
Section Order.
Context `{Imports}.

Import character.

(** The attachments [renderCharacter] (lines 92-105) hands to
    [renderAttachment], in the order of the calls. *)
Definition attachmentOrder (c : entity.Character) : list AttachmentType :=
  (if negb (entity.ActionIndex c =? Dead) && negb (entity.ActionIndex c =? Sitting)
   then [AttachmentShadow] else []) ++
  (if system.behind c && system.renderShield c then [AttachmentShield] else []) ++
  [AttachmentBody; AttachmentHead] ++
  (if negb (system.behind c) && system.renderShield c then [AttachmentShield] else []).

End Order.
End order.

(** ** The command of a layer *)

Module commands.
Section Commands.
Context `{Imports}.

(** Lines 196-217: the command [renderLayer] hands to [renderSpriteCommand]
    for a layer, once the texture is created and the sprite frame found. *)
Definition spriteCommand (c : entity.Character) (layer : act.ActionFrameLayer)
    (frame : spr.SpriteFrame) (texture : graphicTexture)
    (position : float32 * float32) : rendercmd.SpriteRenderCommand :=
  {| rendercmd.Scale := act.Scale layer;
     rendercmd.Size :=
       (f32_mul (f32_mul (f32_of_int (spr.Width frame)) SpriteScaleFactor)
                (f32_mul (fst (act.Scale layer)) OnePixelSize),
        f32_mul (f32_mul (f32_of_int (spr.Height frame)) SpriteScaleFactor)
                (f32_mul (snd (act.Scale layer)) OnePixelSize));
     rendercmd.Position := entity.Position c;
     rendercmd.Offset := system.layerOffset layer position;
     rendercmd.RotationRadians :=
       f32_of_f64 (f64_mul (f64_of_int (act.Angle layer)) PiOver180);
     rendercmd.Texture := texture;
     rendercmd.FlipVertically := act.Mirrored layer |}.

(** A drawn layer can be rendered: its texture is created and its sprite
    frame exists. *)
Definition renderable (sprf : spr.SpriteFile) (layer : act.ActionFrameLayer) : Prop :=
  NewTextureFromRGBA (ImageAt sprf (act.SpriteFrameIndex layer)) <> None /\
  index (spr.Frames sprf) (act.SpriteFrameIndex layer) <> None.

(** [cmd] is the command of [layer]. *)
Definition commandOf (c : entity.Character) (sprf : spr.SpriteFile)
    (position : float32 * float32) (layer : act.ActionFrameLayer)
    (cmd : rendercmd.SpriteRenderCommand) : Prop :=
  exists texture frame,
    NewTextureFromRGBA (ImageAt sprf (act.SpriteFrameIndex layer)) = Some texture /\
    index (spr.Frames sprf) (act.SpriteFrameIndex layer) = Some frame /\
    cmd = spriteCommand c layer frame texture position.

Definition appendCommands (cmds : list rendercmd.SpriteRenderCommand) (st : system.State)
  : system.State :=
  {| system.sprite := system.sprite st ++ cmds;
     system.char := system.char st;
     system.offset := system.offset st;
     system.clock := system.clock st |}.

End Commands.
End commands.

(** ** The registry of characters (lines 34-83) *)

Module registry.

(** [strconv.Itoa]: decimal digits, a leading minus sign for a negative
    number, "0" for zero. *)
Definition Itoa (i : Z) : String.string :=
  DecimalString.NilZero.string_of_int (Z.to_int i).

(** [strconv.Itoa(int(id))] for the uint64 [id] of an entity: the conversion
    to [int] wraps above [2 ^ 63]. *)
Definition key (id : Z) : String.string := Itoa (wrap64 id).

(** [component.CharacterAttachmentComponentConfig], with the integer-valued
    gender, job sprite and head index. *)
Record CharacterAttachmentComponentConfig : Type := {
  Gender : Z;
  JobSpriteID : Z;
  HeadIndex : Z;
  EnableShield : bool;
  ShieldSpriteName : String.string
}.

Section Registry.
Context `{Imports}.

(** Package [component], not embedded: the attachment component, its
    constructor over the GRF file of the system ([None] is a returned
    error) and the setter of a character. *)
Class AssetSource : Type := {
  CharacterAttachmentComponent : Type;
  NewCharacterAttachmentComponent :
    CharacterAttachmentComponentConfig -> option CharacterAttachmentComponent;
  SetCharacterAttachmentComponent :
    entity.Character -> CharacterAttachmentComponent -> entity.Character
}.

Context `{AssetSource}.

(** A character as the registry sees it: the identifier of its
    [ecs.BasicEntity] (a uint64), the fields [Add] reads, and the fields the
    rendering reads and writes. *)
Record Registered : Type := {
  ID : Z;
  charGender : Z;
  charJobSpriteID : Z;
  charHeadIndex : Z;
  charShieldSpriteName : String.string;
  state : entity.Character
}.

Definition setState (e : Registered) (c : entity.Character) : Registered :=
  {| ID := ID e;
     charGender := charGender e;
     charJobSpriteID := charJobSpriteID e;
     charHeadIndex := charHeadIndex e;
     charShieldSpriteName := charShieldSpriteName e;
     state := c |}.

(** [map[string]*entity.Character] *)
Definition Characters : Type := String.string -> option Registered.

Definition insert (k : String.string) (e : Registered) (m : Characters) : Characters :=
  fun k' => if String.eqb k k' then Some e else m k'.

Definition delete (k : String.string) (m : Characters) : Characters :=
  fun k' => if String.eqb k k' then None else m k'.

Record CharacterRenderSystem : Type := {
  characters : Characters;
  RenderCommands : list rendercmd.SpriteRenderCommand
}.

(** Lines 41-50 *)
Definition NewCharacterRenderSystem : CharacterRenderSystem :=
  {| characters := fun _ => None; RenderCommands := [] |}.

Definition configOf (e : Registered) : CharacterAttachmentComponentConfig :=
  {| Gender := charGender e;
     JobSpriteID := charJobSpriteID e;
     HeadIndex := charHeadIndex e;
     EnableShield := entity.HasShield (state e);
     ShieldSpriteName := charShieldSpriteName e |}.

(** Lines 65-79 *)
Definition Add (e : Registered) (s : CharacterRenderSystem) : Outcome CharacterRenderSystem :=
  match NewCharacterAttachmentComponent (configOf e) with
  | None => Fatal
  | Some cmp =>
      Ok {| characters :=
              insert (key (ID e))
                     (setState e (SetCharacterAttachmentComponent (state e) cmp))
                     (characters s);
            RenderCommands := RenderCommands s |}
  end.

(** An [ecs.Identifier]: a character, or a value of another type. *)
Inductive Identifier : Type :=
| IsCharacter (e : Registered)
| NotCharacter.

(** Lines 60-63: the type assertion panics on anything but a character. *)
Definition AddByInterface (o : Identifier) (s : CharacterRenderSystem)
  : Outcome CharacterRenderSystem :=
  match o with
  | IsCharacter e => Add e s
  | NotCharacter => Panic
  end.

(** Lines 81-83, for the identifier of the entity removed. *)
Definition Remove (id : Z) (s : CharacterRenderSystem) : CharacterRenderSystem :=
  {| characters := delete (key id) (characters s);
     RenderCommands := RenderCommands s |}.

(** Lines 55-57: the loop of [Update] over the keys in the order [visit] in
    which the range statement yields them; [reads] counts the readings of
    the clock.  The character is rendered through its pointer, so what the
    rendering assigns stays in the registry. *)
Fixpoint renderEach (dt : float32) (visit : list String.string)
    (s : CharacterRenderSystem) (reads : nat) : Outcome (CharacterRenderSystem * nat) :=
  match visit with
  | [] => Ok (s, reads)
  | k :: rest =>
      match characters s k with
      | None => renderEach dt rest s reads
      | Some e =>
          st <- system.renderCharacter dt (state e) (RenderCommands s) reads ;;
          renderEach dt rest
            {| characters := insert k (setState e (system.char st)) (characters s);
               RenderCommands := system.sprite st |}
            (system.clock st)
      end
  end.

(** Lines 52-58 *)
Definition Update (dt : float32) (visit : list String.string)
    (s : CharacterRenderSystem) (reads : nat) : Outcome (CharacterRenderSystem * nat) :=
  renderEach dt visit {| characters := characters s; RenderCommands := [] |} reads.

End Registry.
End registry.

(** ** A concrete registry *)

Module troupe.

Import character scenario.
#[local] Existing Instance imports.

(** The asset source knows the genders 0 and 1 and binds the files of the
    knight. *)
Definition assets : registry.AssetSource :=
  {| registry.CharacterAttachmentComponent := AttachmentType -> entity.AttachmentFiles;
     registry.NewCharacterAttachmentComponent :=
       fun cfg => if (0 <=? registry.Gender cfg) && (registry.Gender cfg <=? 1)
                  then Some files else None;
     registry.SetCharacterAttachmentComponent :=
       fun c cmp =>
         {| entity.Direction := entity.Direction c;
            entity.ActionIndex := entity.ActionIndex c;
            entity.PlayMode := entity.PlayMode c;
            entity.HasShield := entity.HasShield c;
            entity.FPSMultiplier := entity.FPSMultiplier c;
            entity.ForcedDuration := entity.ForcedDuration c;
            entity.AnimationStartedAt := entity.AnimationStartedAt c;
            entity.AnimationDelay := entity.AnimationDelay c;
            entity.Files := cmp;
            entity.Position := entity.Position c |} |}.

#[local] Existing Instance assets.

(** A knight without files yet, at position [(x, 0, 0)], facing [facing]. *)
Definition recruit (id facing x : Z) : registry.Registered :=
  {| registry.ID := id;
     registry.charGender := 1;
     registry.charJobSpriteID := 7;
     registry.charHeadIndex := 2;
     registry.charShieldSpriteName := String.EmptyString;
     registry.state :=
       {| entity.Direction := facing;
          entity.ActionIndex := 32;
          entity.PlayMode := 0;
          entity.HasShield := true;
          entity.FPSMultiplier := f64_of_int 1;
          entity.ForcedDuration := 0;
          entity.AnimationStartedAt := 0;
          entity.AnimationDelay := 0;
          entity.Files :=
            fun _ => {| entity.ACT := []; entity.SPR := {| spr.Frames := [] |} |};
          entity.Position := (x, 0, 0) |} |}.

Definition system0 : registry.CharacterRenderSystem := registry.NewCharacterRenderSystem.

Definition orElse {A : Type} (r : Outcome A) (otherwise : A) : A :=
  match r with
  | Ok a => a
  | _ => otherwise
  end.

Definition isOk {A : Type} (r : Outcome A) : bool :=
  match r with
  | Ok _ => true
  | _ => false
  end.

Definition nonEmpty {A : Type} (l : list A) : bool :=
  match l with
  | [] => false
  | _ :: _ => true
  end.

(** Two recruits are added, with the identifiers 1 and 2 ^ 63 + 5. *)
Definition system1 : registry.CharacterRenderSystem :=
  orElse (registry.Add (recruit 1 0 100) system0) system0.
Definition system2 : registry.CharacterRenderSystem :=
  orElse (registry.Add (recruit (2 ^ 63 + 5) 3 200) system1) system1.

Definition visitBoth : list String.string := [registry.key (2 ^ 63 + 5); registry.key 1].

Definition afterUpdate : registry.CharacterRenderSystem * nat :=
  orElse (registry.Update dt visitBoth system2 0) (system2, 0%nat).

(** A head frame that carries an anchor of its own, and an empty frame. *)
Definition anchoredFrame : act.ActionFrame :=
  {| act.Layers := [layerAt 3 4; {| act.SpriteFrameIndex := -1;
                                    act.Scale := (one, one);
                                    act.Angle := 0;
                                    act.Position := (0, 0);
                                    act.Mirrored := true |}];
     act.Positions := [(2, 1)] |}.
Definition emptyFrame : act.ActionFrame :=
  {| act.Layers := []; act.Positions := [(9, 9)] |}.

Definition headActionOf (headFrames : list act.ActionFrame) : act.Action :=
  {| act.Frames := headFrames;
     act.Delay := f64_of_int 150;
     act.DurationMilliseconds := 150 |}.

Definition variantFiles (headFrames : list act.ActionFrame) (elem : AttachmentType)
  : entity.AttachmentFiles :=
  match elem with
  | AttachmentHead => {| entity.ACT := [headActionOf headFrames]; entity.SPR := sheet 3 |}
  | AttachmentShadow => {| entity.ACT := []; entity.SPR := sheet 0 |}
  | _ => files elem
  end.

(** A character whose shadow has no actions and whose head plays
    [headFrames]; [kind] is its action kind. *)
Definition variant (headFrames : list act.ActionFrame) (kind : Z) (shield : bool)
  : entity.Character :=
  {| entity.Direction := 0;
     entity.ActionIndex := kind;
     entity.PlayMode := 0;
     entity.HasShield := shield;
     entity.FPSMultiplier := f64_of_int 1;
     entity.ForcedDuration := 0;
     entity.AnimationStartedAt := 0;
     entity.AnimationDelay := 0;
     entity.Files := variantFiles headFrames;
     entity.Position := (0, 0, 0) |}.

(** The state after the body of a variant was rendered. *)
Definition bodyDone (headFrames : list act.ActionFrame) : system.State :=
  run (system.renderAttachment dt AttachmentBody (start (variant headFrames 32 false)))
      (start (variant headFrames 32 false)).
Definition headDone (headFrames : list act.ActionFrame) : system.State :=
  run (system.renderAttachment dt AttachmentHead (bodyDone headFrames)) (bodyDone headFrames).

(** The knight seen from behind, rendered. *)
Definition afterKnight : system.State :=
  run (system.renderCharacter dt (knight 3 0) [] 0) (start (knight 3 0)).

(** A command of the tick of both recruits. *)
Definition blank : rendercmd.SpriteRenderCommand :=
  {| rendercmd.Scale := system.zero2;
     rendercmd.Size := system.zero2;
     rendercmd.Position := (0, 0, 0);
     rendercmd.Offset := system.zero2;
     rendercmd.RotationRadians := S754_zero false;
     rendercmd.Texture := [];
     rendercmd.FlipVertically := false |}.
Definition firstCommand : rendercmd.SpriteRenderCommand :=
  hd blank (registry.RenderCommands (fst afterUpdate)).

(** A sixtieth of a second as a float32. *)
Definition sixtieth : float32 := SFdiv prec32 emax32 (f32_of_int 1) (f32_of_int 60).

End troupe.

(** ** A character of several actions *)

Module lineup.

Import character scenario.
#[local] Existing Instance imports.

(** The files of the knight, with a body of five actions. *)
Definition walkerFiles (elem : AttachmentType) : entity.AttachmentFiles :=
  match elem with
  | AttachmentBody => {| entity.ACT := fiveActions; entity.SPR := sheet 2 |}
  | _ => files elem
  end.

(** A character without a shield, of action kind [kind], facing [facing]. *)
Definition walker (facing kind : Z) : entity.Character :=
  {| entity.Direction := facing;
     entity.ActionIndex := kind;
     entity.PlayMode := 0;
     entity.HasShield := false;
     entity.FPSMultiplier := f64_of_int 1;
     entity.ForcedDuration := 0;
     entity.AnimationStartedAt := 0;
     entity.AnimationDelay := 0;
     entity.Files := walkerFiles;
     entity.Position := (0, 0, 0) |}.

(** A character whose FPS multiplier is zero. *)
Definition frozen : entity.Character :=
  {| entity.Direction := 0;
     entity.ActionIndex := 32;
     entity.PlayMode := 0;
     entity.HasShield := false;
     entity.FPSMultiplier := S754_zero false;
     entity.ForcedDuration := 0;
     entity.AnimationStartedAt := 0;
     entity.AnimationDelay := 0;
     entity.Files := files;
     entity.Position := (0, 0, 0) |}.

(** The knight facing the camera, rendered. *)
Definition afterFrontKnight : system.State :=
  run (system.renderCharacter dt (knight 0 0) [] 0) (start (knight 0 0)).

End lineup.

(** ** The commands of an attachment *)

Module emission.
Section Emission.
Context `{Imports}.

Import character.

(** [renderAttachment] for [elem] returns, takes [st] to [st'] and appends
    [block] to the commands: nothing when the action table of [elem] is
    empty; otherwise the commands of the drawn layers of the frame
    [resolveFrame] settles on, one per layer and in the order of the layers,
    made from the sprite file of [elem]. *)
Definition emits (dt : float32) (elem : AttachmentType) (st : system.State)
    (block : list rendercmd.SpriteRenderCommand) (st' : system.State) : Prop :=
  system.renderAttachment dt elem st = Ok st' /\
  system.sprite st' = system.sprite st ++ block /\
  if len (entity.ACT (entity.Files (system.char st) elem)) =? 0 then block = []
  else
    exists action frame,
      system.resolveFrame dt elem st = Ok (action, frame, system.tickClock st) /\
      Forall2 (commands.commandOf (system.char st)
                 (entity.SPR (entity.Files (system.char st) elem))
                 (system.layerPosition frame elem (system.offset st)))
              (system.drawn (act.Layers frame)) block.

End Emission.
End emission.

(** * Properties of the embedding *)

(** ** Integers *)

Module GoIntFacts.

Lemma wrap64_small (z : Z) : in_int64 z -> wrap64 z = z.
Proof.
  unfold in_int64, wrap64. intros Hz.
  rewrite Z.mod_small; lia.
Qed.

Lemma index_in_range {A : Type} (l : list A) (i : Z) :
  0 <= i < len l -> exists a, index l i = Some a.
Proof.
  unfold index, len. intros [Hlo Hhi].
  destruct (Z.ltb_spec i 0) as [Hneg | _]; [lia|].
  destruct (nth_error l (Z.to_nat i)) as [a |] eqn:E.
  - exists a. reflexivity.
  - apply nth_error_None in E. lia.
Qed.

Lemma len_zero_nil {A : Type} (l : list A) : len l = 0 -> l = [].
Proof.
  unfold len. destruct l as [| a l]; [reflexivity|]. cbn [length]. lia.
Qed.

Lemma len_nonneg {A : Type} (l : list A) : 0 <= len l.
Proof. unfold len. lia. Qed.

End GoIntFacts.

(** ** Floats: small integers pass through float64 unchanged *)

Module GoFloatFacts.

Lemma digits2_pos_bounds (p : positive) :
  2 ^ (Zpos (digits2_pos p) - 1) <= Zpos p < 2 ^ Zpos (digits2_pos p).
Proof.
  induction p as [p IH | p IH |]; cbn [digits2_pos].
  - rewrite Pos2Z.inj_succ.
    replace (Z.succ (Zpos (digits2_pos p)) - 1) with (Z.succ (Zpos (digits2_pos p) - 1)) by lia.
    rewrite !Z.pow_succ_r by lia. lia.
  - rewrite Pos2Z.inj_succ.
    replace (Z.succ (Zpos (digits2_pos p)) - 1) with (Z.succ (Zpos (digits2_pos p) - 1)) by lia.
    rewrite !Z.pow_succ_r by lia. lia.
  - cbn. lia.
Qed.

Lemma iter_xO_value (p k : positive) :
  Zpos (Pos.iter xO p k) = Zpos p * 2 ^ Zpos k.
Proof.
  induction k as [| k IH] using Pos.peano_ind.
  - cbn. lia.
  - rewrite Pos.iter_succ, Pos2Z.inj_succ, Z.pow_succ_r by lia.
    rewrite Pos2Z.inj_xO, IH. lia.
Qed.

Lemma iter_xO_digits (p k : positive) :
  digits2_pos (Pos.iter xO p k) = (digits2_pos p + k)%positive.
Proof.
  induction k as [| k IH] using Pos.peano_ind.
  - cbn. lia.
  - rewrite Pos.iter_succ. cbn [digits2_pos]. rewrite IH. lia.
Qed.

Lemma aligned_spec (p : positive) :
  Zpos p < 2 ^ 53 ->
  Zpos (digits2_pos (fst (aligned p))) = 53 /\
  snd (aligned p) = Zpos (digits2_pos p) - 53 /\
  snd (aligned p) <= 0 /\
  Zpos (fst (aligned p)) = Zpos p * 2 ^ (- snd (aligned p)).
Proof.
  intros Hp.
  assert (Hd : Zpos (digits2_pos p) <= 53).
  { destruct (Z_le_gt_dec (Zpos (digits2_pos p)) 53) as [|Hgt]; [assumption|].
    pose proof (digits2_pos_bounds p) as [Hlo _].
    assert (2 ^ 53 <= 2 ^ (Zpos (digits2_pos p) - 1)) by (apply Z.pow_le_mono_r; lia).
    lia. }
  unfold aligned, shl_align.
  destruct (Zpos (digits2_pos p) - 53 - 0) as [| q | q] eqn:E; cbn [fst snd].
  - split; [lia|]. split; [lia|]. split; [lia|]. cbn. lia.
  - lia.
  - rewrite iter_xO_digits, iter_xO_value, Pos2Z.inj_add.
    split; [lia|]. split; [lia|]. split; [lia|].
    replace (- (Zpos (digits2_pos p) - 53)) with (Zpos q) by lia. reflexivity.
Qed.

(** Rounding an integer below [2 ^ 53] to binary64 only re-aligns it. *)
Lemma binary_round_small (s : bool) (p : positive) :
  Zpos p < 2 ^ 53 ->
  binary_round 53 1024 s p 0 = S754_finite s (fst (aligned p)) (snd (aligned p)).
Proof.
  intros Hp.
  destruct (aligned_spec p Hp) as (Hdig & Hexp & Hneg & _).
  assert (Hd : 1 <= Zpos (digits2_pos p)) by lia.
  unfold binary_round.
  replace (fexp 53 1024 (Zpos (digits2_pos p) + 0)) with (Zpos (digits2_pos p) - 53)
    by (unfold fexp, emin; lia).
  fold (aligned p).
  destruct (aligned p) as [mz ez] eqn:E. cbn [fst snd] in *.
  unfold binary_round_aux, shr_fexp.
  cbn [Zdigits2]. rewrite Hdig.
  replace (fexp 53 1024 (53 + ez) - ez) with 0 by (unfold fexp, emin; lia).
  cbn [shr_record_of_loc shr shr_m loc_of_shr_record round_nearest_even Zdigits2].
  rewrite Hdig.
  replace (fexp 53 1024 (53 + ez) - ez) with 0 by (unfold fexp, emin; lia).
  cbn [shr shr_m].
  replace (ez <=? 1024 - 53) with true by (symmetry; apply Z.leb_le; lia).
  reflexivity.
Qed.

Lemma truncate_aligned (s : bool) (p : positive) :
  Zpos p < 2 ^ 53 ->
  truncate (S754_finite s (fst (aligned p)) (snd (aligned p))) = Some (cond_Zopp s (Zpos p)).
Proof.
  intros Hp. destruct (aligned_spec p Hp) as (_ & _ & Hneg & Hval).
  cbn [truncate]. f_equal. f_equal.
  destruct (snd (aligned p)) as [| q | q] eqn:E.
  - rewrite Hval. cbn. lia.
  - lia.
  - rewrite Hval. replace (- Z.neg q) with (Zpos q) by lia.
    apply Z.div_mul. lia.
Qed.

Lemma truncate_100 :
  truncate (S754_finite false 7036874417766400 (-46)) = Some 100.
Proof. reflexivity. Qed.

(** [math.Max(float64(t), 100)] holds the integer [max t 100] when [t] is
    below [2 ^ 53] in magnitude. *)
Lemma Max_of_int_100 (t : Z) :
  Z.abs t < 2 ^ 53 ->
  truncate (Max (f64_of_int t) (f64_of_int 100)) = Some (Z.max t 100).
Proof.
  intros Ht.
  change (f64_of_int 100) with (S754_finite false 7036874417766400 (-46)).
  unfold f64_of_int, prec64, emax64.
  destruct t as [| p | p].
  - reflexivity.
  - assert (Hp : Zpos p < 2 ^ 53) by lia.
    cbn [binary_normalize].
    rewrite (binary_round_small false p Hp).
    pose proof (truncate_aligned false p Hp) as Htr.
    destruct (aligned_spec p Hp) as (_ & Hexp & _ & Hval).
    pose proof (digits2_pos_bounds p) as [Hlo Hhi].
    destruct (aligned p) as [mz ez]. cbn [fst snd cond_Zopp] in *.
    unfold Max. cbn [is_pos_inf is_nan is_zero orb andb].
    unfold SFltb. cbn [SFcompare].
    destruct (Z.compare_spec (-46) ez) as [Heq | Hlt | Hgt].
    + rewrite Pos.compare_cont_spec.
      assert (Hv : Zpos mz = Zpos p * 70368744177664)
        by (rewrite Hval, <- Heq; reflexivity).
      destruct (Pos.compare_spec 7036874417766400 mz) as [E | E | E];
        cbn [Pos.switch_Eq].
      * rewrite truncate_100. f_equal. clear - Hv E.
        apply (f_equal Zpos) in E. symmetry. apply Z.max_r. lia.
      * rewrite Htr. f_equal. clear - Hv E.
        apply Pos2Z.pos_lt_pos in E. symmetry. apply Z.max_l. lia.
      * rewrite truncate_100. f_equal. clear - Hv E.
        apply Pos2Z.pos_lt_pos in E. symmetry. apply Z.max_r. lia.
    + rewrite Htr. f_equal.
      assert (2 ^ 7 <= 2 ^ (Zpos (digits2_pos p) - 1)) by (apply Z.pow_le_mono_r; lia).
      lia.
    + rewrite truncate_100. f_equal.
      assert (2 ^ Zpos (digits2_pos p) <= 2 ^ 6) by (apply Z.pow_le_mono_r; lia).
      lia.
  - assert (Hp : Zpos p < 2 ^ 53) by lia.
    cbn [binary_normalize].
    rewrite (binary_round_small true p Hp).
    unfold Max. cbn [is_pos_inf is_nan is_zero orb andb].
    unfold SFltb. cbn [SFcompare].
    rewrite truncate_100. reflexivity.
Qed.

(** *** Integers of any size through float64 *)

Lemma shr_1_m (mrs : shr_record) :
  0 <= shr_m mrs -> shr_m (shr_1 mrs) = shr_m mrs / 2.
Proof.
  destruct mrs as [m r s]. cbn [shr_m]. intros Hm.
  destruct m as [| [p | p |] | p]; cbn [shr_1 shr_m]; try lia.
  - reflexivity.
  - rewrite Pos2Z.inj_xI. apply (Z.div_unique _ 2 _ 1); lia.
  - rewrite Pos2Z.inj_xO. apply (Z.div_unique _ 2 _ 0); lia.
  - reflexivity.
Qed.

Lemma pow2_xI (k : positive) : 2 ^ Zpos k~1 = 2 ^ Zpos k * (2 ^ Zpos k * 2).
Proof.
  assert (E : Zpos k~1 = Zpos k + (Zpos k + 1)) by lia.
  rewrite E, !Z.pow_add_r by lia. reflexivity.
Qed.

Lemma pow2_xO (k : positive) : 2 ^ Zpos k~0 = 2 ^ Zpos k * 2 ^ Zpos k.
Proof.
  assert (E : Zpos k~0 = Zpos k + Zpos k) by lia.
  rewrite E, Z.pow_add_r by lia. reflexivity.
Qed.

Lemma shr_m_iter (k : positive) :
  forall mrs : shr_record,
  0 <= shr_m mrs -> shr_m (iter_pos shr_1 k mrs) = shr_m mrs / 2 ^ Zpos k.
Proof.
  induction k as [k IH | k IH |]; intros mrs Hm; cbn [iter_pos].
  - assert (H1 : 0 <= shr_m (shr_1 mrs))
      by (rewrite shr_1_m by exact Hm; apply Z.div_pos; lia).
    assert (H2 : 0 <= shr_m (iter_pos shr_1 k (shr_1 mrs)))
      by (rewrite IH by exact H1; apply Z.div_pos; lia).
    rewrite IH by exact H2. rewrite IH by exact H1. rewrite shr_1_m by exact Hm.
    assert (Hp : 0 < 2 ^ Zpos k) by (apply Z.pow_pos_nonneg; lia).
    rewrite !Z.div_div by lia. rewrite pow2_xI. f_equal. lia.
  - assert (H2 : 0 <= shr_m (iter_pos shr_1 k mrs))
      by (rewrite IH by exact Hm; apply Z.div_pos; lia).
    rewrite IH by exact H2. rewrite IH by exact Hm.
    assert (Hp : 0 < 2 ^ Zpos k) by (apply Z.pow_pos_nonneg; lia).
    rewrite Z.div_div by lia. rewrite pow2_xO. reflexivity.
  - rewrite shr_1_m by exact Hm. reflexivity.
Qed.


Lemma digits2_pos_unique (x : positive) (n : Z) :
  2 ^ (n - 1) <= Zpos x < 2 ^ n -> Zpos (digits2_pos x) = n.
Proof.
  intros [Hlo Hhi].
  pose proof (digits2_pos_bounds x) as [Dlo Dhi].
  assert (Hn : 0 <= n).
  { destruct (Z_lt_ge_dec n 0) as [Hneg|]; [|lia].
    rewrite (Z.pow_neg_r 2 n) in Hhi by exact Hneg. lia. }
  destruct (Z.lt_trichotomy (Zpos (digits2_pos x)) n) as [Hlt | [Heq | Hgt]].
  - assert (2 ^ Zpos (digits2_pos x) <= 2 ^ (n - 1)) by (apply Z.pow_le_mono_r; lia). lia.
  - exact Heq.
  - assert (2 ^ n <= 2 ^ (Zpos (digits2_pos x) - 1)) by (apply Z.pow_le_mono_r; lia). lia.
Qed.

Lemma round_nearest_even_cases (m : Z) (l : location) :
  round_nearest_even m l = m \/ round_nearest_even m l = m + 1.
Proof.
  destruct l as [| []]; cbn [round_nearest_even]; auto.
  destruct (Z.even m); auto.
Qed.

Lemma shr_record_of_loc_m (m : Z) (l : location) : shr_m (shr_record_of_loc m l) = m.
Proof. destruct l as [| []]; reflexivity. Qed.

Lemma shr_nonneg (mrs : shr_record) (e n : Z) :
  0 <= shr_m mrs -> 0 <= shr_m (fst (shr mrs e n)).
Proof.
  intros Hm. destruct n as [| k | k]; cbn [shr fst]; try exact Hm.
  rewrite shr_m_iter by exact Hm. apply Z.div_pos; [exact Hm|].
  apply Z.pow_pos_nonneg; lia.
Qed.

(** Rounding keeps the sign it is given and never produces a NaN. *)
Lemma binary_round_aux_sign (prec emax : Z) (sx : bool) (mx ex : Z) (lx : location) :
  0 <= mx ->
  is_nan (binary_round_aux prec emax sx mx ex lx) = false /\
  signbit (binary_round_aux prec emax sx mx ex lx) = sx.
Proof.
  intros Hm. unfold binary_round_aux, shr_fexp.
  pose proof (shr_nonneg (shr_record_of_loc mx lx) ex
                (fexp prec emax (Zdigits2 mx + ex) - ex)) as H1.
  rewrite shr_record_of_loc_m in H1. specialize (H1 Hm).
  destruct (shr (shr_record_of_loc mx lx) ex (fexp prec emax (Zdigits2 mx + ex) - ex))
    as [mrs' e']. cbn [fst] in H1.
  set (m1 := round_nearest_even (shr_m mrs') (loc_of_shr_record mrs')).
  assert (Hm1 : 0 <= m1)
    by (destruct (round_nearest_even_cases (shr_m mrs') (loc_of_shr_record mrs'));
        subst m1; lia).
  pose proof (shr_nonneg (shr_record_of_loc m1 loc_Exact) e'
                (fexp prec emax (Zdigits2 m1 + e') - e')) as H2.
  rewrite shr_record_of_loc_m in H2. specialize (H2 Hm1).
  destruct (shr (shr_record_of_loc m1 loc_Exact) e' (fexp prec emax (Zdigits2 m1 + e') - e'))
    as [mrs'' e'']. cbn [fst] in H2.
  destruct (shr_m mrs'') as [| m | m]; [split; reflexivity | | lia].
  destruct (e'' <=? emax - prec); split; reflexivity.
Qed.

Lemma f64_of_int_negative (p : positive) :
  is_nan (f64_of_int (Zneg p)) = false /\ signbit (f64_of_int (Zneg p)) = true.
Proof.
  unfold f64_of_int. cbn [binary_normalize]. unfold binary_round.
  destruct (shl_align p 0 (fexp prec64 emax64 (Zpos (digits2_pos p) + 0))) as [mz ez].
  apply binary_round_aux_sign. lia.
Qed.

(** [math.Max] of a negative number and 100 is 100. *)
Lemma Max_negative_100 (x : float64) :
  is_nan x = false -> signbit x = true ->
  Max x (S754_finite false 7036874417766400 (-46)) = S754_finite false 7036874417766400 (-46).
Proof.
  destruct x as [[] | [] | | [] m e]; cbn [is_nan signbit]; intros Hn Hs;
    try discriminate; reflexivity.
Qed.

(** An integer from [2 ^ 53] up to [2 ^ 63] rounds to a float64 with a
    positive exponent, at most 1024 away from it. *)
Lemma binary_round_large (s : bool) (p : positive) :
  2 ^ 53 <= Zpos p < 2 ^ 63 ->
  exists m e,
    binary_round 53 1024 s p 0 = S754_finite s m e /\
    1 <= e /\
    Zpos p - 1024 <= Zpos m * 2 ^ e <= Zpos p + 1024.
Proof.
  intros [Hlo Hhi].
  pose proof (digits2_pos_bounds p) as [Dlo Dhi].
  unfold binary_round.
  remember (Zpos (digits2_pos p)) as d eqn:Ed.
  assert (Hd1 : 54 <= d).
  { destruct (Z_lt_ge_dec d 54); [|lia].
    assert (2 ^ d <= 2 ^ 53) by (apply Z.pow_le_mono_r; lia). lia. }
  assert (Hd2 : d <= 63).
  { destruct (Z_le_gt_dec d 63); [lia|].
    assert (2 ^ 63 <= 2 ^ (d - 1)) by (apply Z.pow_le_mono_r; lia). lia. }
  replace (fexp 53 1024 (d + 0)) with (d - 53) by (unfold fexp, emin; lia).
  destruct (d - 53) as [| kp | kp] eqn:Ek; try lia.
  assert (Hsh : shl_align p 0 (Zpos kp) = (p, 0)) by reflexivity.
  rewrite Hsh. clear Hsh.
  set (P := 2 ^ Zpos kp).
  assert (HP : 0 < P <= 1024).
  { subst P. split; [apply Z.pow_pos_nonneg; lia|].
    change 1024 with (2 ^ 10). apply Z.pow_le_mono_r; lia. }
  assert (Hpow1 : 2 ^ (d - 1) = 2 ^ 52 * P).
  { subst P. rewrite <- Z.pow_add_r by lia. f_equal. lia. }
  assert (Hpow2 : 2 ^ d = 2 ^ 53 * P).
  { subst P. rewrite <- Z.pow_add_r by lia. f_equal. lia. }
  unfold binary_round_aux.
  assert (E1 : shr_fexp 53 1024 (Zpos p) 0 loc_Exact
               = (iter_pos shr_1 kp (Build_shr_record (Zpos p) false false), Zpos kp)).
  { unfold shr_fexp. cbn [Zdigits2]. rewrite <- Ed.
    replace (fexp 53 1024 (d + 0) - 0) with (Zpos kp) by (unfold fexp, emin; lia).
    reflexivity. }
  rewrite E1. clear E1.
  set (mrs' := iter_pos shr_1 kp (Build_shr_record (Zpos p) false false)).
  assert (Hq : shr_m mrs' = Zpos p / P)
    by (subst mrs' P; rewrite shr_m_iter by (cbn; lia); reflexivity).
  set (q := Zpos p / P) in *.
  assert (Hq1 : P * q <= Zpos p) by (subst q; apply Z.mul_div_le; lia).
  assert (Hq2 : Zpos p < P * (q + 1))
    by (subst q; replace (Zpos p / P + 1) with (Z.succ (Zpos p / P)) by lia;
        apply Z.mul_succ_div_gt; lia).
  assert (Hq3 : 2 ^ 52 <= q < 2 ^ 53).
  { subst q. split.
    - apply Z.div_le_lower_bound; lia.
    - apply Z.div_lt_upper_bound; lia. }
  set (m1 := round_nearest_even (shr_m mrs') (loc_of_shr_record mrs')).
  assert (Hm1 : m1 = q \/ m1 = q + 1)
    by (subst m1; rewrite <- Hq; apply round_nearest_even_cases).
  clearbody m1 mrs'. clear Hq mrs'.
  destruct m1 as [| m1p | m1p]; try lia.
  destruct (Z_lt_ge_dec (Zpos m1p) (2 ^ 53)) as [Hsmall | Hbig].
  - assert (Hdig : Zpos (digits2_pos m1p) = 53) by (apply digits2_pos_unique; lia).
    assert (E2 : shr_fexp 53 1024 (Zpos m1p) (Zpos kp) loc_Exact
                 = (Build_shr_record (Zpos m1p) false false, Zpos kp)).
    { unfold shr_fexp. cbn [Zdigits2]. rewrite Hdig.
      replace (fexp 53 1024 (53 + Zpos kp) - Zpos kp) with 0 by (unfold fexp, emin; lia).
      reflexivity. }
    rewrite E2. cbn [shr_m].
    replace (Zpos kp <=? 1024 - 53) with true by (symmetry; apply Z.leb_le; lia).
    exists m1p, (Zpos kp). split; [reflexivity|]. split; [lia|].
    fold P. destruct Hm1 as [-> | ->]; lia.
  - assert (Hm : m1p = 9007199254740992%positive) by lia.
    subst m1p.
    assert (E2 : shr_fexp 53 1024 (Zpos 9007199254740992) (Zpos kp) loc_Exact
                 = (Build_shr_record (Zpos 4503599627370496) false false, Zpos kp + 1)).
    { unfold shr_fexp. cbn [Zdigits2].
      change (Zpos (digits2_pos 9007199254740992)) with 54.
      replace (fexp 53 1024 (54 + Zpos kp) - Zpos kp) with 1 by (unfold fexp, emin; lia).
      reflexivity. }
    rewrite E2. cbn [shr_m].
    replace (Zpos kp + 1 <=? 1024 - 53) with true by (symmetry; apply Z.leb_le; lia).
    exists 4503599627370496%positive, (Zpos kp + 1). split; [reflexivity|]. split; [lia|].
    rewrite Z.pow_add_r by lia. fold P. change (2 ^ 1) with 2. lia.
Qed.


Lemma Max_large_100 (m : positive) (e : Z) :
  1 <= e ->
  Max (S754_finite false m e) (S754_finite false 7036874417766400 (-46))
  = S754_finite false m e.
Proof.
  intros He. unfold Max. cbn [is_pos_inf is_nan is_zero orb andb].
  unfold SFltb. cbn [SFcompare].
  destruct e as [| e | e]; try lia. reflexivity.
Qed.

(** The 512 integers from [2 ^ 63 - 1024] on all round down to
    [2 ^ 63 - 1024]; the next one, [2 ^ 63 - 512], rounds up to [2 ^ 63]. *)
Lemma Max_of_int_100_band (t : Z) :
  2 ^ 63 - 1024 <= t < 2 ^ 63 - 512 ->
  truncate (Max (f64_of_int t) (f64_of_int 100)) = Some (2 ^ 63 - 1024).
Proof.
  intros Ht.
  assert (Hall : forallb
            (fun n => match truncate (Max (f64_of_int (2 ^ 63 - 1024 + Z.of_nat n))
                                          (f64_of_int 100)) with
                      | Some v => v =? 2 ^ 63 - 1024
                      | None => false
                      end) (seq 0 512) = true) by (vm_compute; reflexivity).
  rewrite forallb_forall in Hall.
  specialize (Hall (Z.to_nat (t - (2 ^ 63 - 1024)))).
  replace (2 ^ 63 - 1024 + Z.of_nat (Z.to_nat (t - (2 ^ 63 - 1024)))) with t in Hall by lia.
  assert (Hin : In (Z.to_nat (t - (2 ^ 63 - 1024))) (seq 0 512)) by (apply in_seq; lia).
  specialize (Hall Hin).
  destruct (truncate (Max (f64_of_int t) (f64_of_int 100))) as [v |]; [|discriminate].
  apply Z.eqb_eq in Hall. rewrite Hall. reflexivity.
Qed.

(** [math.Max(float64(t), 100)] for every integer [t] below [2 ^ 63 - 512]:
    an integer from 100 up to [2 ^ 63 - 1024], equal to [max t 100] when [t]
    is below [2 ^ 53] and at most 1024 away from it otherwise. *)
Lemma Max_of_int_100_wide (t : Z) :
  t < 2 ^ 63 - 512 ->
  exists v,
    truncate (Max (f64_of_int t) (f64_of_int 100)) = Some v /\
    100 <= v < 2 ^ 63 /\
    (t < 2 ^ 53 -> v = Z.max t 100) /\
    Z.abs (v - Z.max t 100) <= 1024.
Proof.
  intros Ht.
  destruct (Z_lt_ge_dec t 0) as [Hneg | Hpos].
  - exists 100. destruct t as [| p | p]; try lia.
    destruct (f64_of_int_negative p) as [Hn Hs].
    change (f64_of_int 100) with (S754_finite false 7036874417766400 (-46)).
    rewrite (Max_negative_100 _ Hn Hs), truncate_100.
    split; [reflexivity|]. split; [lia|]. split; [intros _|]; lia.
  - destruct (Z_lt_ge_dec t (2 ^ 53)) as [Hsmall | Hbig].
    + exists (Z.max t 100). rewrite Max_of_int_100 by lia.
      split; [reflexivity|]. split; [lia|]. split; [intros _; reflexivity | lia].
    + destruct (Z_lt_ge_dec t (2 ^ 63 - 1024)) as [Hmid | Hband].
      * destruct t as [| p | p]; try lia.
        destruct (binary_round_large false p) as (m & e & Hround & He & Hval); [lia|].
        exists (Zpos m * 2 ^ e).
        change (f64_of_int 100) with (S754_finite false 7036874417766400 (-46)).
        unfold f64_of_int, prec64, emax64. cbn [binary_normalize].
        rewrite Hround, (Max_large_100 m e He).
        split.
        { cbn [truncate cond_Zopp]. destruct e as [| e | e]; try lia. reflexivity. }
        split; [lia|]. split; [lia|]. lia.
      * exists (2 ^ 63 - 1024). rewrite Max_of_int_100_band by lia.
        split; [reflexivity|]. split; [lia|]. split; [lia|]. lia.
Qed.

End GoFloatFacts.

(** ** The animation clock *)

Module ClockFacts.
Section Clock.
Context `{Imports}.

Import character GoIntFacts GoFloatFacts.

(** The floor of 100 on values that float64 holds exactly. *)
Lemma floorAt100_small (t : Z) :
  Z.abs t < 2 ^ 53 -> system.floorAt100 t = Z.max t 100.
Proof.
  intros Ht. unfold system.floorAt100, system.int64, int64_of_float.
  rewrite (Max_of_int_100 t Ht).
  replace ((- 2 ^ 63 <=? Z.max t 100) && (Z.max t 100 <? 2 ^ 63)) with true;
    [reflexivity|].
  symmetry. apply andb_true_iff. split; [apply Z.leb_le | apply Z.ltb_lt]; lia.
Qed.

Lemma quot64_small (a b : Z) :
  Z.abs (Z.quot a b) < 2 ^ 53 -> quot64 a b = Z.quot a b.
Proof.
  intros Hq. unfold quot64. apply wrap64_small. unfold in_int64. lia.
Qed.

Lemma quot64_nonneg (e t : Z) :
  0 <= e < 2 ^ 63 -> 0 < t -> quot64 e t = e / t /\ 0 <= e / t < 2 ^ 63.
Proof.
  intros He Ht.
  assert (Hq : Z.quot e t = e / t) by (apply Z.quot_div_nonneg; lia).
  assert (Hb : 0 <= e / t <= e).
  { split; [apply Z.div_pos; lia|].
    apply Z.div_le_upper_bound; nia. }
  unfold quot64. rewrite Hq, wrap64_small; [lia|]. unfold in_int64. lia.
Qed.

(** Whenever the value before the floor is one float64 holds exactly, the
    duration of one frame is at least 100, hence a valid divisor. *)
Lemma timeNeededForOneFrame_small (action : act.Action) (c : entity.Character) (t : Z) :
  system.unclampedTimeForOneFrame action c = Ok t ->
  Z.abs t < 2 ^ 53 ->
  system.timeNeededForOneFrame action c = Ok (Z.max t 100) /\ 0 < Z.max t 100.
Proof.
  intros Hbase Ht. unfold system.timeNeededForOneFrame. rewrite Hbase. cbn [bind].
  rewrite floorAt100_small by exact Ht. split; [reflexivity | lia].
Qed.

(** The floor of 100 on every value below [2 ^ 63 - 512], where float64
    rounds to [2 ^ 63] and the conversion back is left to the implementation. *)
Lemma floorAt100_wide (t : Z) :
  t < 2 ^ 63 - 512 ->
  100 <= system.floorAt100 t < 2 ^ 63 /\
  (t < 2 ^ 53 -> system.floorAt100 t = Z.max t 100) /\
  Z.abs (system.floorAt100 t - Z.max t 100) <= 1024.
Proof.
  intros Ht. destruct (Max_of_int_100_wide t Ht) as (v & Hv & Hrange & Hsmall & Hnear).
  unfold system.floorAt100, system.int64, int64_of_float. rewrite Hv.
  replace ((- 2 ^ 63 <=? v) && (v <? 2 ^ 63)) with true
    by (symmetry; apply andb_true_iff; split; [apply Z.leb_le | apply Z.ltb_lt]; lia).
  auto.
Qed.

(** An int64 divided by a positive int64 does not wrap. *)
Lemma quot64_exact (a b : Z) :
  in_int64 a -> 0 < b -> quot64 a b = Z.quot a b.
Proof.
  unfold in_int64. intros Ha Hb. unfold quot64. apply wrap64_small. unfold in_int64.
  destruct (Z_lt_ge_dec a 0) as [Hneg | Hpos].
  - assert (Hq : Z.quot a b = - ((- a) / b))
      by (rewrite <- (Z.opp_involutive a) at 1; rewrite Z.quot_opp_l by lia;
          rewrite Z.quot_div_nonneg by lia; reflexivity).
    assert (Hb1 : 0 <= (- a) / b <= - a).
    { split; [apply Z.div_pos; lia|]. apply Z.div_le_upper_bound; nia. }
    lia.
  - assert (Hq : Z.quot a b = a / b) by (apply Z.quot_div_nonneg; lia).
    assert (Hb1 : 0 <= a / b <= a).
    { split; [apply Z.div_pos; lia|]. apply Z.div_le_upper_bound; nia. }
    lia.
Qed.

(** C5 (as amended).  When a forced duration is set and the action has
    frames, the value before the floor is the int64 quotient of the forced
    duration by the frame count (for a forced duration in the int64 range:
    the truncated quotient); otherwise it is the float64 product of the delay
    and the reciprocal of the FPS multiplier, converted to int64.  For every
    such value [t] below 2^63 - 512, negative ones included, the duration of
    one frame is returned and is never less than 100; it is [max t 100] when
    [t] is below 2^53, and at most 1024 away from it above, where float64
    rounds. *)
Theorem timeNeededForOneFrame_floor (action : act.Action) (c : entity.Character) :
  let frameCount := len (act.Frames action) in
  let t :=
    if entity.ForcedDuration c =? 0
    then system.int64 (f64_mul (act.Delay action)
                               (f64_div (f64_of_int 1) (entity.FPSMultiplier c)))
    else quot64 (entity.ForcedDuration c) frameCount in
  (entity.ForcedDuration c <> 0 -> 0 < frameCount) ->
  t < 2 ^ 63 - 512 ->
  exists r,
    system.timeNeededForOneFrame action c = Ok r /\
    100 <= r /\
    (t < 2 ^ 53 -> r = Z.max t 100) /\
    Z.abs (r - Z.max t 100) <= 1024 /\
    (entity.ForcedDuration c <> 0 -> in_int64 (entity.ForcedDuration c) ->
     t = Z.quot (entity.ForcedDuration c) frameCount).
Proof.
  intros frameCount t Hframes Ht.
  destruct (floorAt100_wide t Ht) as (Hfloor & Hsmall & Hnear).
  exists (system.floorAt100 t).
  split; [|split; [lia|]; split; [exact Hsmall|]; split; [exact Hnear|]].
  - unfold system.timeNeededForOneFrame, system.unclampedTimeForOneFrame.
    fold frameCount. subst t.
    destruct (Z.eqb_spec (entity.ForcedDuration c) 0) as [Hz | Hnz].
    + reflexivity.
    + specialize (Hframes Hnz).
      destruct (Z.eqb_spec frameCount 0) as [H0 | _]; [lia|]. reflexivity.
  - intros Hnz Hrange. specialize (Hframes Hnz). subst t.
    destruct (Z.eqb_spec (entity.ForcedDuration c) 0) as [Hz | _]; [contradiction|].
    apply quot64_exact; assumption.
Qed.

(** *** The frame [resolveFrame] settles on *)

Lemma resolveFrame_state (dt : float32) (elem : AttachmentType) (st s1 : system.State)
    (action : act.Action) (frame : act.ActionFrame) :
  system.resolveFrame dt elem st = Ok (action, frame, s1) -> s1 = system.tickClock st.
Proof.
  unfold system.resolveFrame. intros Hrun.
  destruct (orPanic (index _ _)) as [a | |]; cbn [bind] in Hrun; try discriminate.
  destruct (system.timeNeededForOneFrame a _) as [t | |]; cbn [bind] in Hrun;
    try discriminate.
  destruct (system.frameIndex _ _ _ t) as [i | |]; cbn [bind] in Hrun; try discriminate.
  destruct (orPanic (index (act.Frames a) i)) as [f | |]; cbn [bind] in Hrun;
    try discriminate.
  injection Hrun as _ _ <-. reflexivity.
Qed.

(** What [resolveFrame] went through when it returns. *)
Lemma resolveFrame_inv (dt : float32) (elem : AttachmentType) (st s1 : system.State)
    (action : act.Action) (frame : act.ActionFrame) :
  system.resolveFrame dt elem st = Ok (action, frame, s1) ->
  let c := system.char st in
  let actions := entity.ACT (entity.Files c elem) in
  exists t i,
    index actions (system.actionIdx c (len actions)) = Some action /\
    system.timeNeededForOneFrame action c = Ok t /\
    system.frameIndex (entity.PlayMode c) (len (act.Frames action))
      (system.elapsedTime
         (SinceMilliseconds (entity.AnimationStartedAt c) (system.clock st)) dt) t = Ok i /\
    index (act.Frames action) i = Some frame.
Proof.
  intros Hrun c actions. unfold system.resolveFrame in Hrun. fold c actions in Hrun.
  destruct (index actions (system.actionIdx c (len actions))) as [a |];
    cbn [orPanic bind] in Hrun; [|discriminate].
  destruct (system.timeNeededForOneFrame a c) as [t | |] eqn:Ht; cbn [bind] in Hrun;
    try discriminate.
  destruct (system.frameIndex _ _ _ t) as [i | |] eqn:Hi; cbn [bind] in Hrun;
    try discriminate.
  destruct (index (act.Frames a) i) as [f |] eqn:Hf; cbn [orPanic bind] in Hrun;
    [|discriminate].
  injection Hrun as <- <- _. exists t, i. auto.
Qed.

(** The index [frameIndex] returns for three frames, and for a play mode
    other than Repeat. *)
Lemma frameIndex_three_inv (playMode elapsed t i : Z) :
  system.frameIndex playMode 3 elapsed t = Ok i -> i = 0.
Proof.
  unfold system.frameIndex.
  destruct (t =? 0); [discriminate|].
  destruct (playMode =? Repeat); cbn; intros Hi; injection Hi as <-; reflexivity.
Qed.

Lemma frameIndex_other_inv (playMode frameCount elapsed t i : Z) :
  playMode <> Repeat ->
  system.frameIndex playMode frameCount elapsed t = Ok i -> i = 0.
Proof.
  unfold system.frameIndex. intros Hmode.
  destruct (t =? 0); [discriminate|].
  destruct (Z.eqb_spec playMode Repeat) as [E | _]; [contradiction|].
  cbn [bind]. destruct (frameCount =? 3); intros Hi; injection Hi as <-; reflexivity.
Qed.

(** C6.  An action of exactly three frames always shows frame 0, whatever
    the elapsed time, the play mode and the FPS multiplier: for any
    (non-zero) duration of one frame the index computed is 0, and whenever
    [resolveFrame] settles on a frame of such an action it is its first
    frame. *)
Theorem frameIndex_three_frames (playMode elapsed t : Z) (dt : float32)
    (elem : AttachmentType) (st s1 : system.State) (action : act.Action)
    (frame : act.ActionFrame) :
  (t <> 0 -> system.frameIndex playMode 3 elapsed t = Ok 0) /\
  (system.resolveFrame dt elem st = Ok (action, frame, s1) ->
   len (act.Frames action) = 3 ->
   index (act.Frames action) 0 = Some frame).
Proof.
  split.
  - intros Ht. unfold system.frameIndex.
    destruct (Z.eqb_spec t 0) as [E | _]; [contradiction|].
    destruct (playMode =? Repeat); reflexivity.
  - intros Hres H3.
    destruct (resolveFrame_inv _ _ _ _ _ _ Hres) as (t' & i & _ & _ & Hi & Hf).
    rewrite H3 in Hi. apply frameIndex_three_inv in Hi. subst i. exact Hf.
Qed.

(** C7 (as amended).  Under play mode Repeat, for a frame count N > 0 other
    than 3 and a non-negative elapsed time e, the frame index is
    (e / t) mod N for the duration t of one frame; and for every N > 0
    advancing the elapsed time by N * t gives the same frame index. *)
Theorem frameIndex_repeat (frameCount elapsed t : Z) :
  0 < frameCount -> 0 <= elapsed < 2 ^ 63 -> 0 < t ->
  (frameCount <> 3 ->
   system.frameIndex Repeat frameCount elapsed t = Ok ((elapsed / t) mod frameCount)) /\
  (elapsed + frameCount * t < 2 ^ 63 ->
   system.frameIndex Repeat frameCount (elapsed + frameCount * t) t =
   system.frameIndex Repeat frameCount elapsed t).
Proof.
  intros HN He Ht.
  destruct (quot64_nonneg elapsed t He Ht) as [Hq Hrange].
  assert (Hstep : forall e, 0 <= e < 2 ^ 63 ->
    system.frameIndex Repeat frameCount e t =
    Ok (if frameCount =? 3 then 0 else (e / t) mod frameCount)).
  { intros e Hee. unfold system.frameIndex.
    destruct (Z.eqb_spec t 0) as [E | _]; [lia|].
    rewrite Z.eqb_refl.
    destruct (Z.eqb_spec frameCount 0) as [E | _]; [lia|].
    cbn [bind]. destruct (quot64_nonneg e t Hee Ht) as [Hqe Hre].
    unfold rem64. rewrite Hqe, Z.rem_mod_nonneg by lia. reflexivity. }
  split.
  - intros H3. rewrite (Hstep elapsed He).
    destruct (Z.eqb_spec frameCount 3) as [E | _]; [contradiction | reflexivity].
  - intros Hnext.
    rewrite (Hstep elapsed He), (Hstep (elapsed + frameCount * t)) by nia.
    rewrite Z.div_add by lia.
    replace (elapsed / t + frameCount) with (elapsed / t + 1 * frameCount) by lia.
    rewrite Z.mod_add by lia. reflexivity.
Qed.

(** C9.  For a play mode other than Repeat and a frame count other than 3
    the frame index is 0 whatever the elapsed time: the computation returns
    (for any non-zero duration of one frame) and returns 0, and whenever
    [resolveFrame] settles on a frame in such a play mode it is the first
    frame of the action. *)
Theorem frameIndex_other_modes (playMode frameCount elapsed t : Z) (dt : float32)
    (elem : AttachmentType) (st s1 : system.State) (action : act.Action)
    (frame : act.ActionFrame) :
  playMode <> Repeat -> frameCount <> 3 ->
  (t <> 0 -> system.frameIndex playMode frameCount elapsed t = Ok 0) /\
  (entity.PlayMode (system.char st) = playMode ->
   len (act.Frames action) = frameCount ->
   system.resolveFrame dt elem st = Ok (action, frame, s1) ->
   index (act.Frames action) 0 = Some frame).
Proof.
  intros Hmode _. split.
  - intros Ht. unfold system.frameIndex.
    destruct (Z.eqb_spec t 0) as [E | _]; [contradiction|].
    destruct (Z.eqb_spec playMode Repeat) as [E | _]; [contradiction|].
    cbn [bind]. destruct (frameCount =? 3); reflexivity.
  - intros Hpm _ Hres.
    destruct (resolveFrame_inv _ _ _ _ _ _ Hres) as (t' & i & _ & _ & Hi & Hf).
    rewrite Hpm in Hi. apply (frameIndex_other_inv _ _ _ _ _ Hmode) in Hi.
    subst i. exact Hf.
Qed.


End Clock.
End ClockFacts.

(** ** Directions, draw order and offsets *)

Module RenderFacts.
Section Render.
Context `{Imports}.

Import character GoIntFacts ClockFacts.

(** C1 (as amended).  The behind flag is true exactly when the direction
    [renderCharacter] computes lies strictly between 1 and 6; and when the
    camera's entry of the direction table is a multiple of 8 (as 0 is), that
    direction is the facing itself, so it lies in [0, 8) for a facing in
    0..7. *)
Theorem behind_iff (c : entity.Character) :
  (system.behind c = true <-> 1 < system.direction c < 6) /\
  (0 <= entity.Direction c < 8 ->
   Z.rem (DirectionTable FixedCameraDirection) 8 = 0 ->
   system.direction c = entity.Direction c /\ 0 <= system.direction c < 8).
Proof.
  split.
  - unfold system.behind. rewrite andb_true_iff, !Z.ltb_lt. tauto.
  - intros Hd Ht. unfold system.direction, add64, rem64. rewrite Ht, Z.add_0_r.
    rewrite wrap64_small by (unfold in_int64; lia). lia.
Qed.

(** Whatever the entry of the direction table, some facing in 0..7 gives a
    direction outside [0, 8) or a behind flag that differs from
    1 < d < 5. *)
Lemma behind_below_five_fails :
  exists facing, 0 <= facing < 8 /\
    forall c : entity.Character, entity.Direction c = facing ->
      ~ (0 <= system.direction c < 8 /\
         (system.behind c = true <-> 1 < system.direction c < 5)).
Proof.
  set (r := Z.rem (DirectionTable FixedCameraDirection) 8).
  assert (Hr : -8 < r < 8).
  { pose proof (Z.rem_bound_abs (DirectionTable FixedCameraDirection) 8) as Hb.
    assert (Z.abs r < 8) by (apply Hb; lia). lia. }
  assert (Hdir : forall c f, entity.Direction c = f -> 0 <= f < 8 ->
                             system.direction c = f + r).
  { intros c f Hf Hrange. unfold system.direction, add64, rem64. fold r.
    rewrite Hf. apply wrap64_small. unfold in_int64. lia. }
  assert (Hfive : forall c, system.direction c = 5 ->
            ~ (0 <= system.direction c < 8 /\
               (system.behind c = true <-> 1 < system.direction c < 5))).
  { intros c H5 [_ [Hiff _]].
    assert (Hb : system.behind c = true) by (unfold system.behind; rewrite H5; reflexivity).
    specialize (Hiff Hb). lia. }
  destruct (Z_le_gt_dec 6 r) as [Hhigh | Hlow].
  - exists 7. split; [lia|]. intros c Hc [Hrange _].
    rewrite (Hdir c 7 Hc) in Hrange; lia.
  - destruct (Z_le_gt_dec (-2) r) as [Hmid | Hneg].
    + exists (5 - r). split; [lia|]. intros c Hc.
      apply Hfive. rewrite (Hdir c (5 - r) Hc); lia.
    + exists 0. split; [lia|]. intros c Hc [Hrange _].
      rewrite (Hdir c 0 Hc) in Hrange; lia.
Qed.

(** On the enumerated domain (a non-negative action kind, a facing in 0..7,
    a non-negative table entry, all far from the int64 bounds) the composite
    index is the action kind plus the direction modulo 8, and is not
    negative. *)
Lemma compositeIndex_domain (c : entity.Character) :
  0 <= entity.ActionIndex c < 2 ^ 62 ->
  0 <= entity.Direction c < 8 ->
  0 <= DirectionTable FixedCameraDirection < 2 ^ 62 ->
  system.compositeIndex c =
  entity.ActionIndex c + (entity.Direction c + DirectionTable FixedCameraDirection) mod 8 /\
  0 <= system.compositeIndex c.
Proof.
  intros Hk Hd Ht. unfold system.compositeIndex, add64, rem64.
  rewrite (wrap64_small (entity.Direction c + _)) by (unfold in_int64; lia).
  rewrite Z.rem_mod_nonneg by lia.
  assert (Hm : 0 <= (entity.Direction c + DirectionTable FixedCameraDirection) mod 8 < 8)
    by (apply Z.mod_pos_bound; lia).
  rewrite wrap64_small by (unfold in_int64; lia). lia.
Qed.

(** C4 (as amended).  For an attachment whose action table has L > 0 entries
    and a non-negative composite index i, the index into the table is
    i mod L, it lies in [0, L), the entry there exists and it is the action
    [resolveFrame] goes on with: the lookup does not panic, and whenever
    [resolveFrame] returns, the action it returns is that entry. *)
Theorem resolveFrame_selects_action (dt : float32) (elem : AttachmentType)
    (st : system.State) :
  let c := system.char st in
  let actions := entity.ACT (entity.Files c elem) in
  let L := len actions in
  let i := system.compositeIndex c in
  0 < L -> 0 <= i ->
  0 <= i mod L < L /\
  system.actionIdx c L = i mod L /\
  exists action,
    index actions (i mod L) = Some action /\
    system.resolveFrame dt elem st =
      (t <- system.timeNeededForOneFrame action c ;;
       idx <- system.frameIndex (entity.PlayMode c) (len (act.Frames action))
                (system.elapsedTime
                   (SinceMilliseconds (entity.AnimationStartedAt c) (system.clock st)) dt)
                t ;;
       frame <- orPanic (index (act.Frames action) idx) ;;
       Ok (action, frame, system.tickClock st)) /\
    forall a f s1, system.resolveFrame dt elem st = Ok (a, f, s1) -> a = action.
Proof.
  intros c actions L i HL Hi.
  assert (Hr : 0 <= i mod L < L) by (apply Z.mod_pos_bound; lia).
  assert (Hidx : system.actionIdx c L = i mod L)
    by (unfold system.actionIdx, rem64; fold i; apply Z.rem_mod_nonneg; lia).
  split; [exact Hr|]. split; [exact Hidx|].
  destruct (index_in_range actions (i mod L) Hr) as [action Haction].
  exists action. split; [exact Haction|]. split.
  - unfold system.resolveFrame. fold c actions L. rewrite Hidx, Haction. reflexivity.
  - intros a f s1 Hres.
    destruct (resolveFrame_inv _ _ _ _ _ _ Hres) as (t & j & Ha & _).
    fold c actions L in Ha. rewrite Hidx, Haction in Ha. injection Ha as <-. reflexivity.
Qed.

(** A negative composite index that is not a multiple of the length of the
    table gives a negative index: the lookup panics. *)
Lemma negative_index_panics (dt : float32) (elem : AttachmentType) (st : system.State) :
  let c := system.char st in
  let actions := entity.ACT (entity.Files c elem) in
  0 < len actions ->
  system.compositeIndex c < 0 ->
  Z.rem (system.compositeIndex c) (len actions) <> 0 ->
  system.actionIdx c (len actions) < 0 /\
  system.resolveFrame dt elem st = Panic /\
  system.renderAttachment dt elem st = Panic.
Proof.
  intros c actions HL Hneg Hrem.
  assert (Hidx : system.actionIdx c (len actions) < 0).
  { unfold system.actionIdx, rem64.
    pose proof (Z.rem_nonpos (system.compositeIndex c) (len actions)) as Hle.
    specialize (Hle ltac:(lia) ltac:(lia)). lia. }
  assert (Hres : system.resolveFrame dt elem st = Panic).
  { unfold system.resolveFrame. fold c actions. unfold index.
    destruct (Z.ltb_spec (system.actionIdx c (len actions)) 0) as [_ | Hge]; [|lia].
    reflexivity. }
  split; [exact Hidx|]. split; [exact Hres|].
  unfold system.renderAttachment. fold c actions.
  destruct (Z.eqb_spec (len actions) 0) as [E | _]; [lia|].
  rewrite Hres. reflexivity.
Qed.

(** *** What one attachment appends *)

Lemma renderLayer_spec (layer : act.ActionFrameLayer) (sprf : spr.SpriteFile)
    (position : float32 * float32) (st st' : system.State) :
  system.renderLayer layer sprf position st = Ok st' ->
  (act.SpriteFrameIndex layer <? 0) = false ->
  exists cmd,
    st' = system.renderSpriteCommand cmd st /\
    rendercmd.Offset cmd = system.layerOffset layer position /\
    rendercmd.Position cmd = entity.Position (system.char st).
Proof.
  unfold system.renderLayer. intros Hrun Hidx. rewrite Hidx in Hrun.
  destruct (NewTextureFromRGBA (ImageAt sprf (act.SpriteFrameIndex layer)))
    as [texture |]; [|discriminate].
  destruct (index (spr.Frames sprf) (act.SpriteFrameIndex layer)) as [frame |];
    cbn [orPanic bind] in Hrun; [|discriminate].
  injection Hrun as <-. eexists. split; [reflexivity|]. split; reflexivity.
Qed.

Lemma renderLayers_spec (layers : list act.ActionFrameLayer) (sprf : spr.SpriteFile)
    (position : float32 * float32) :
  forall st st' : system.State,
  system.renderLayers layers sprf position st = Ok st' ->
  exists cmds,
    system.sprite st' = system.sprite st ++ cmds /\
    Forall2 (fun layer cmd => rendercmd.Offset cmd = system.layerOffset layer position)
            (system.drawn layers) cmds /\
    system.char st' = system.char st /\
    system.offset st' = system.offset st /\
    system.clock st' = system.clock st.
Proof.
  induction layers as [| layer rest IH]; intros st st' Hrun; cbn [system.renderLayers] in Hrun.
  - injection Hrun as <-. exists []. rewrite app_nil_r. repeat split; constructor.
  - unfold system.drawn. cbn [filter]. fold (system.drawn rest).
    destruct (act.SpriteFrameIndex layer <? 0) eqn:Hidx; cbn [negb].
    + apply IH. exact Hrun.
    + destruct (system.renderLayer layer sprf position st) as [s1 | |] eqn:Hone;
        cbn [bind] in Hrun; [|discriminate|discriminate].
      destruct (renderLayer_spec _ _ _ _ _ Hone Hidx) as (cmd & -> & Hoff & _).
      destruct (IH _ _ Hrun) as (cmds & Hs & Hall & Hc & Ho & Hk).
      exists (cmd :: cmds). cbn [system.renderSpriteCommand system.sprite system.char
                                  system.offset system.clock] in *.
      rewrite Hs, <- app_assoc. repeat split; try assumption.
      constructor; assumption.
Qed.

Lemma renderAttachment_resolved (dt : float32) (elem : AttachmentType)
    (st s1 : system.State) (action : act.Action) (frame : act.ActionFrame) :
  len (entity.ACT (entity.Files (system.char st) elem)) <> 0 ->
  system.resolveFrame dt elem st = Ok (action, frame, s1) ->
  system.renderAttachment dt elem st =
  system.renderFrame action frame elem (system.tickClock st).
Proof.
  intros Hlen Hres. unfold system.renderAttachment.
  destruct (Z.eqb_spec (len (entity.ACT (entity.Files (system.char st) elem))) 0)
    as [E | _]; [contradiction|].
  rewrite (resolveFrame_state _ _ _ _ _ _ Hres) in Hres.
  rewrite Hres. reflexivity.
Qed.

Lemma renderFrame_spec (action : act.Action) (frame : act.ActionFrame)
    (elem : AttachmentType) (st st' : system.State) :
  system.renderFrame action frame elem st = Ok st' ->
  exists cmds,
    system.sprite st' = system.sprite st ++ cmds /\
    Forall2 (fun layer cmd =>
               rendercmd.Offset cmd =
               system.layerOffset layer (system.layerPosition frame elem (system.offset st)))
            (system.drawn (act.Layers frame)) cmds /\
    system.clock st' = system.clock st /\
    entity.Files (system.char st') = entity.Files (system.char st) /\
    (act.Layers frame = [] ->
     system.offset st' = system.zero2 /\ system.char st' = system.char st) /\
    (act.Layers frame <> [] ->
     system.offset st' = system.savedOffset frame (system.offset st) /\
     entity.AnimationDelay (system.char st') =
     mul64 (act.DurationMilliseconds action) Millisecond).
Proof.
  unfold system.renderFrame. intros Hrun.
  destruct (Z.eqb_spec (len (act.Layers frame)) 0) as [Hnil | Hsome].
  - apply len_zero_nil in Hnil. injection Hrun as <-.
    exists []. rewrite Hnil, app_nil_r. cbn.
    repeat split; try constructor; try reflexivity; congruence.
  - destruct (system.renderLayers _ _ _ st) as [s1 | |] eqn:Hlayers; cbn [bind] in Hrun;
      [|discriminate|discriminate].
    injection Hrun as <-.
    destruct (renderLayers_spec _ _ _ _ _ Hlayers) as (cmds & Hs & Hall & Hc & Ho & Hk).
    exists cmds. cbn. rewrite Hc, Ho.
    repeat split; try assumption; try reflexivity;
      match goal with
      | Hnil : act.Layers frame = [] |- _ =>
          rewrite Hnil in Hsome; cbn in Hsome; contradiction
      end.
Qed.

(** The layers are all rendered when each drawn layer has a sprite frame and
    its texture can be created; the frame is then rendered to the end. *)
Lemma renderLayers_returns (layers : list act.ActionFrameLayer) (sprf : spr.SpriteFile)
    (position : float32 * float32) :
  Forall (fun layer =>
            NewTextureFromRGBA (ImageAt sprf (act.SpriteFrameIndex layer)) <> None /\
            index (spr.Frames sprf) (act.SpriteFrameIndex layer) <> None)
         (system.drawn layers) ->
  forall st : system.State,
  exists st', system.renderLayers layers sprf position st = Ok st'.
Proof.
  induction layers as [| layer rest IH]; intros Hall st; cbn [system.renderLayers].
  - exists st. reflexivity.
  - unfold system.drawn in Hall. cbn [filter] in Hall. fold (system.drawn rest) in Hall.
    destruct (act.SpriteFrameIndex layer <? 0) eqn:Hidx; cbn [negb] in Hall.
    + apply IH. exact Hall.
    + inversion Hall as [| ? ? [Htex Hframe] Hrest]; subst.
      unfold system.renderLayer. rewrite Hidx.
      destruct (NewTextureFromRGBA _) as [texture |]; [|contradiction].
      destruct (index (spr.Frames sprf) _) as [frame |]; [|contradiction].
      cbn [orPanic bind]. apply IH. exact Hrest.
Qed.

Lemma renderFrame_returns (action : act.Action) (frame : act.ActionFrame)
    (elem : AttachmentType) (st : system.State) :
  let sprf := entity.SPR (entity.Files (system.char st) elem) in
  Forall (fun layer =>
            NewTextureFromRGBA (ImageAt sprf (act.SpriteFrameIndex layer)) <> None /\
            index (spr.Frames sprf) (act.SpriteFrameIndex layer) <> None)
         (system.drawn (act.Layers frame)) ->
  exists st', system.renderFrame action frame elem st = Ok st'.
Proof.
  intros sprf Hall. unfold system.renderFrame.
  destruct (len (act.Layers frame) =? 0); [eexists; reflexivity|].
  fold sprf.
  destruct (renderLayers_returns _ sprf
              (system.layerPosition frame elem (system.offset st)) Hall st) as [s1 ->].
  cbn [bind]. eexists. reflexivity.
Qed.

(** [renderAttachment] only appends to the commands. *)
Lemma renderAttachment_appends (dt : float32) (elem : AttachmentType)
    (st st' : system.State) :
  system.renderAttachment dt elem st = Ok st' ->
  exists cmds, system.sprite st' = system.sprite st ++ cmds.
Proof.
  unfold system.renderAttachment. intros Hrun.
  destruct (len (entity.ACT (entity.Files (system.char st) elem)) =? 0).
  - injection Hrun as <-. exists []. rewrite app_nil_r. reflexivity.
  - destruct (system.resolveFrame dt elem st) as [[[action frame] s1] | |] eqn:Hres;
      cbn [bind] in Hrun; [|discriminate|discriminate].
    rewrite (resolveFrame_state _ _ _ _ _ _ Hres) in Hrun.
    destruct (renderFrame_spec _ _ _ _ _ Hrun) as (cmds & Hs & _).
    exists cmds. exact Hs.
Qed.

(** So does a sequence of attachments: the commands of each attachment
    follow those of the attachments before it. *)
Lemma renderSequence_appends (dt : float32) (elems : list AttachmentType) :
  forall st st' : system.State,
  system.renderSequence dt elems st = Ok st' ->
  exists cmds, system.sprite st' = system.sprite st ++ cmds.
Proof.
  induction elems as [| elem rest IH]; intros st st' Hrun; cbn [system.renderSequence] in Hrun.
  - injection Hrun as <-. exists []. rewrite app_nil_r. reflexivity.
  - destruct (system.renderAttachment dt elem st) as [s1 | |] eqn:Hone;
      cbn [bind] in Hrun; [|discriminate|discriminate].
    destruct (renderAttachment_appends _ _ _ _ Hone) as [c1 H1].
    destruct (IH _ _ Hrun) as [c2 H2].
    exists (c1 ++ c2). rewrite H2, H1, app_assoc. reflexivity.
Qed.

(** C2 (as amended).  A Body whose resolved frame has layers and the anchor
    Positions[0] = (10, 5) leaves (10, 5) in the offset accumulator; a Head
    rendered next whose resolved frame has no Positions entry appends one
    command per drawn layer, and each carries the offset of its raw layer
    position with a zero shift: the accumulator is not applied. *)
Theorem head_without_positions_unshifted (dt : float32)
    (st st1 st2 sb sh : system.State)
    (bodyAction headAction : act.Action) (bodyFrame headFrame : act.ActionFrame)
    (others : list (Z * Z)) :
  len (entity.ACT (entity.Files (system.char st) AttachmentBody)) <> 0 ->
  system.resolveFrame dt AttachmentBody st = Ok (bodyAction, bodyFrame, sb) ->
  act.Positions bodyFrame = (10, 5) :: others ->
  act.Layers bodyFrame <> [] ->
  system.renderAttachment dt AttachmentBody st = Ok st1 ->
  len (entity.ACT (entity.Files (system.char st1) AttachmentHead)) <> 0 ->
  system.resolveFrame dt AttachmentHead st1 = Ok (headAction, headFrame, sh) ->
  act.Positions headFrame = [] ->
  system.renderAttachment dt AttachmentHead st1 = Ok st2 ->
  system.offset st1 = system.anchor (10, 5) /\
  exists cmds,
    system.sprite st2 = system.sprite st1 ++ cmds /\
    Forall2 (fun layer cmd =>
               rendercmd.Offset cmd = system.layerOffset layer system.zero2)
            (system.drawn (act.Layers headFrame)) cmds.
Proof.
  intros Hlb Hrb Hpb Hlayers Hbody Hlh Hrh Hph Hhead.
  rewrite (renderAttachment_resolved _ _ _ _ _ _ Hlb Hrb) in Hbody.
  rewrite (renderAttachment_resolved _ _ _ _ _ _ Hlh Hrh) in Hhead.
  destruct (renderFrame_spec _ _ _ _ _ Hbody) as (_ & _ & _ & _ & _ & _ & Hsaved).
  destruct (Hsaved Hlayers) as [Hoff _].
  split.
  - rewrite Hoff. unfold system.savedOffset. rewrite Hpb. reflexivity.
  - destruct (renderFrame_spec _ _ _ _ _ Hhead) as (cmds & Hs & Hall & _).
    exists cmds. split; [exact Hs|].
    unfold system.layerPosition in Hall. rewrite Hph in Hall. exact Hall.
Qed.

(** C8 (as amended).  After an attachment is rendered with a frame that has
    at least one layer, the character's animation delay is the action's
    DurationMilliseconds times [time.Millisecond] (in int64), whatever the
    duration of one frame the clock computed. *)
Theorem animationDelay_recorded (dt : float32) (elem : AttachmentType)
    (st s1 st' : system.State) (action : act.Action) (frame : act.ActionFrame) :
  len (entity.ACT (entity.Files (system.char st) elem)) <> 0 ->
  system.resolveFrame dt elem st = Ok (action, frame, s1) ->
  act.Layers frame <> [] ->
  system.renderAttachment dt elem st = Ok st' ->
  entity.AnimationDelay (system.char st') =
  wrap64 (act.DurationMilliseconds action * 1000000).
Proof.
  intros Hlen Hres Hlayers Hrun.
  rewrite (renderAttachment_resolved _ _ _ _ _ _ Hlen Hres) in Hrun.
  destruct (renderFrame_spec _ _ _ _ _ Hrun) as (_ & _ & _ & _ & _ & _ & Hsaved).
  destruct (Hsaved Hlayers) as [_ Hdelay]. exact Hdelay.
Qed.

End Render.
End RenderFacts.

(** ** The properties on the concrete setting *)

Module Checks.

Import character scenario.
#[local] Existing Instance imports.

(** The model runs: facing the camera the knight's commands are those of
    Shadow, Body, Head, Shield; facing away, Shadow, Shield, Body, Head. *)
Example knight_front_textures :
  textures (system.renderCharacter dt (knight 0 0) [] 0) = Some [[0]; [2]; [3]; [1]].
Proof. vm_compute. reflexivity. Qed.

Example knight_back_textures :
  textures (system.renderCharacter dt (knight 3 0) [] 0) = Some [[0]; [1]; [2]; [3]].
Proof. vm_compute. reflexivity. Qed.

(** C1, counterexample.  Facing 5 with a table entry of 0 gives the combined
    direction 5; the behind flag is true although 5 is not below 5. *)
Lemma behind_at_five :
  0 <= entity.Direction (knight 5 0) < 8 /\
  system.direction (knight 5 0) = 5 /\
  system.behind (knight 5 0) = true /\
  ~ (0 <= system.direction (knight 5 0) < 8 /\
     (system.behind (knight 5 0) = true <-> 1 < system.direction (knight 5 0) < 5)).
Proof.
  split; [cbn; lia|]. split; [reflexivity|]. split; [reflexivity|].
  change (system.direction (knight 5 0)) with 5.
  change (system.behind (knight 5 0)) with true.
  intros [_ [Hiff _]]. specialize (Hiff eq_refl). lia.
Qed.

(** The direction of [renderCharacter] is not reduced modulo 8, while the
    one of [renderAttachment] is: with a table entry of 1, facing 7 gives 8
    in the former and 0 in the latter. *)
Lemma direction_not_reduced :
  system.direction shiftedKnight = 8 /\
  system.compositeIndex shiftedKnight = 32 + 0.
Proof. split; reflexivity. Qed.

(** C2, counterexample.  The Body leaves (10, 5) in the accumulator, yet the
    one command of the Head, whose layer sits at (3, 4), carries the offset
    of (3, 4) unshifted, which is neither the offset of (13, 9) nor the
    unshifted offset moved by (10, 5). *)
Lemma head_offset_ignores_anchor :
  system.renderAttachment dt AttachmentBody st0 = Ok afterBody /\
  system.offset afterBody = system.anchor (10, 5) /\
  system.renderAttachment dt AttachmentHead afterBody = Ok afterHead /\
  map rendercmd.Offset (skipn (length (system.sprite afterBody)) (system.sprite afterHead))
  = [system.layerOffset (layerAt 3 4) system.zero2] /\
  system.layerOffset (layerAt 3 4) system.zero2 = (f32_of_int 300, f32_of_int 400) /\
  system.layerOffset (layerAt 3 4) (system.anchor (10, 5))
  = (f32_of_int 1300, f32_of_int 900) /\
  (f32_of_int 300, f32_of_int 400) <> (f32_of_int 1300, f32_of_int 900) /\
  (f32_of_int 300, f32_of_int 400)
  <> (f32_add (f32_of_int 300) (f32_of_int 10), f32_add (f32_of_int 400) (f32_of_int 5)).
Proof.
  repeat split; try (vm_compute; reflexivity); vm_compute; discriminate.
Qed.

(** C4, counterexample.  A character facing -1 with action kind 0 and a body
    of five actions: the composite index is -1, the index into the table is
    -1 (Go's remainder keeps the sign) and not (-1) mod 5 = 4, although the
    table has an entry at 4; the lookup panics, and with it the rendering of
    the body and of the character. *)
Lemma negative_facing_panics :
  len (entity.ACT (entity.Files (lineup.walker (-1) 0) AttachmentBody)) = 5 /\
  system.compositeIndex (lineup.walker (-1) 0) = -1 /\
  (-1) mod 5 = 4 /\
  index fiveActions 4 = Some (actionOf [bodyFrame]) /\
  system.actionIdx (lineup.walker (-1) 0) 5 = -1 /\
  index fiveActions (-1) = None /\
  system.resolveFrame dt AttachmentBody (start (lineup.walker (-1) 0)) = Panic /\
  system.renderAttachment dt AttachmentBody (start (lineup.walker (-1) 0)) = Panic /\
  system.renderCharacter dt (lineup.walker (-1) 0) [] 0 = Panic.
Proof.
  repeat split; vm_compute; reflexivity.
Qed.

(** C5, counterexample.  With no forced duration, a delay of 9800 and an FPS
    multiplier of 49, the duration of one frame is 199, while 9800 divided
    by 49 is 200 (also in float64). *)
Lemma reciprocal_rounds_down :
  entity.ForcedDuration sprinter = 0 /\
  act.Delay longAction = f64_of_int 9800 /\
  entity.FPSMultiplier sprinter = f64_of_int 49 /\
  system.timeNeededForOneFrame longAction sprinter = Ok 199 /\
  f64_div (f64_of_int 9800) (f64_of_int 49) = f64_of_int 200 /\
  9800 = 200 * 49 /\
  199 <> Z.max 200 100.
Proof.
  repeat split; try (vm_compute; reflexivity). lia.
Qed.

(** C5, the floor below zero.  An FPS multiplier of zero makes the product
    infinite, which the conversion of amd64 turns into the least int64; a
    forced duration of -2^60 over one frame is negative as well: both are
    raised to 100. *)
Example floor_on_negative_values :
  f64_mul (f64_of_int 150) (f64_div (f64_of_int 1) (S754_zero false)) = S754_infinity false /\
  system.unclampedTimeForOneFrame (actionOf [bodyFrame]) lineup.frozen = Ok (- 2 ^ 63) /\
  system.timeNeededForOneFrame (actionOf [bodyFrame]) lineup.frozen = Ok 100 /\
  system.unclampedTimeForOneFrame (actionOf [bodyFrame]) (knight 0 (- 2 ^ 60)) =
  Ok (- 2 ^ 60) /\
  system.timeNeededForOneFrame (actionOf [bodyFrame]) (knight 0 (- 2 ^ 60)) = Ok 100.
Proof.
  repeat split; vm_compute; reflexivity.
Qed.

(** C5, the end of the floor.  The value 2^63 - 512 rounds to the float64
    2^63, which no int64 holds: the conversion back is left to the
    implementation, and with the result amd64 gives (the least int64) the
    duration of one frame falls below 100. *)
Lemma floor_ends_below_two_63 :
  f64_of_int (2 ^ 63 - 512) = S754_finite false 4503599627370496 11 /\
  truncate (Max (f64_of_int (2 ^ 63 - 512)) (f64_of_int 100)) = Some (2 ^ 63) /\
  system.floorAt100 (2 ^ 63 - 512) = - 2 ^ 63 /\
  system.floorAt100 (2 ^ 63 - 513) = 2 ^ 63 - 1024.
Proof.
  repeat split; vm_compute; reflexivity.
Qed.

(** C7, counterexample.  In play mode Repeat an action of three frames shows
    frame 0 at an elapsed time of 4984 with 100 per frame, not frame
    (4984 / 100) mod 3 = 1: the head of the nodding character resolves to the
    first frame of its action, not to the second. *)
Lemma repeat_three_frames_stuck :
  entity.PlayMode (nodder 0) = Repeat /\
  len (act.Frames fidget) = 3 /\
  system.timeNeededForOneFrame fidget (nodder 0) = Ok 100 /\
  system.elapsedTime (SinceMilliseconds 0 0) dt = 4984 /\
  system.frameIndex Repeat 3 4984 100 = Ok 0 /\
  (4984 / 100) mod 3 = 1 /\
  system.resolveFrame dt AttachmentHead (start (nodder 0)) =
  Ok (fidget, bodyFrame, system.tickClock (start (nodder 0))) /\
  index (act.Frames fidget) ((4984 / 100) mod 3) = Some headFrame /\
  bodyFrame <> headFrame.
Proof.
  repeat split; try (vm_compute; reflexivity). discriminate.
Qed.

(** C8, counterexample.  With a forced total duration of 1000 over one frame
    the clock computes 1000 for one frame, while the recorded animation delay
    is 150 milliseconds, the action's own duration. *)
Lemma animationDelay_ignores_clock :
  system.timeNeededForOneFrame (actionOf [bodyFrame]) (knight 0 1000) = Ok 1000 /\
  system.renderAttachment dt AttachmentBody hurried = Ok afterHurriedBody /\
  entity.AnimationDelay (system.char afterHurriedBody) = 150 * Millisecond /\
  150 * Millisecond <> 1000 /\
  150 * Millisecond <> 1000 * Millisecond.
Proof.
  repeat split; try (vm_compute; reflexivity); vm_compute; discriminate.
Qed.

(** *** The theorems at concrete inputs *)

Lemma behind_iff_witness :
  (system.behind (knight 5 0) = true <-> 1 < system.direction (knight 5 0) < 6) /\
  system.direction (knight 5 0) = entity.Direction (knight 5 0) /\
  0 <= system.direction (knight 5 0) < 8.
Proof.
  destruct (RenderFacts.behind_iff (knight 5 0)) as [Hiff Hrange].
  split; [exact Hiff|]. apply Hrange; [cbn; lia | reflexivity].
Defined.

Lemma head_without_positions_unshifted_witness :
  system.offset afterBody = system.anchor (10, 5) /\
  exists cmds,
    system.sprite afterHead = system.sprite afterBody ++ cmds /\
    Forall2 (fun layer cmd =>
               rendercmd.Offset cmd = system.layerOffset layer system.zero2)
            (system.drawn (act.Layers headFrame)) cmds.
Proof.
  apply (RenderFacts.head_without_positions_unshifted dt st0 afterBody afterHead
           (system.tickClock st0) (system.tickClock afterBody)
           (actionOf [bodyFrame]) (actionOf [headFrame]) bodyFrame headFrame []).
  - vm_compute. lia.
  - vm_compute. reflexivity.
  - reflexivity.
  - vm_compute. discriminate.
  - vm_compute. reflexivity.
  - vm_compute. lia.
  - vm_compute. reflexivity.
  - reflexivity.
  - vm_compute. reflexivity.
Defined.

Lemma resolveFrame_selects_action_witness :
  0 <= 32 mod 5 < 5 /\
  system.actionIdx (lineup.walker 0 32) 5 = 32 mod 5 /\
  exists action,
    index fiveActions (32 mod 5) = Some action /\
    system.resolveFrame dt AttachmentBody (start (lineup.walker 0 32)) =
      (t <- system.timeNeededForOneFrame action (lineup.walker 0 32) ;;
       idx <- system.frameIndex 0 (len (act.Frames action))
                (system.elapsedTime (SinceMilliseconds 0 0%nat) dt) t ;;
       frame <- orPanic (index (act.Frames action) idx) ;;
       Ok (action, frame, system.tickClock (start (lineup.walker 0 32)))) /\
    forall a f s1,
      system.resolveFrame dt AttachmentBody (start (lineup.walker 0 32)) = Ok (a, f, s1) ->
      a = action.
Proof.
  apply (RenderFacts.resolveFrame_selects_action dt AttachmentBody
           (start (lineup.walker 0 32))).
  - vm_compute. reflexivity.
  - vm_compute. discriminate.
Defined.

Lemma timeNeededForOneFrame_floor_witness :
  exists r,
    system.timeNeededForOneFrame (actionOf [bodyFrame]) (knight 0 (- 2 ^ 60)) = Ok r /\
    100 <= r /\
    (- 2 ^ 60 < 2 ^ 53 -> r = Z.max (- 2 ^ 60) 100) /\
    Z.abs (r - Z.max (- 2 ^ 60) 100) <= 1024 /\
    (- 2 ^ 60 <> 0 -> in_int64 (- 2 ^ 60) -> - 2 ^ 60 = Z.quot (- 2 ^ 60) 1).
Proof.
  apply (ClockFacts.timeNeededForOneFrame_floor (actionOf [bodyFrame]) (knight 0 (- 2 ^ 60))).
  - intros _. vm_compute. reflexivity.
  - vm_compute. reflexivity.
Defined.

Lemma frameIndex_three_frames_witness :
  system.frameIndex Repeat 3 4984 100 = Ok 0 /\
  index (act.Frames fidget) 0 = Some bodyFrame.
Proof.
  destruct (ClockFacts.frameIndex_three_frames Repeat 4984 100 dt AttachmentHead
              (start (nodder 0)) (system.tickClock (start (nodder 0))) fidget bodyFrame)
    as [Hindex Hframe].
  split.
  - apply Hindex. lia.
  - apply Hframe; vm_compute; reflexivity.
Defined.

Lemma frameIndex_repeat_witness :
  system.frameIndex Repeat 4 950 100 = Ok ((950 / 100) mod 4) /\
  system.frameIndex Repeat 4 (950 + 4 * 100) 100 = system.frameIndex Repeat 4 950 100.
Proof.
  destruct (ClockFacts.frameIndex_repeat 4 950 100) as [Hat Hperiod]; try lia.
  split; [apply Hat | apply Hperiod]; lia.
Defined.

Lemma frameIndex_other_modes_witness :
  system.frameIndex 1 4 4984 150 = Ok 0 /\
  index (act.Frames fourFrames) 0 = Some bodyFrame.
Proof.
  destruct (ClockFacts.frameIndex_other_modes 1 4 4984 150 dt AttachmentBody
              (start (nodder 1)) (system.tickClock (start (nodder 1))) fourFrames bodyFrame)
    as [Hindex Hframe].
  - vm_compute. discriminate.
  - lia.
  - split.
    + apply Hindex. lia.
    + apply Hframe; vm_compute; reflexivity.
Defined.


Lemma animationDelay_recorded_witness :
  entity.AnimationDelay (system.char afterHurriedBody) =
  wrap64 (act.DurationMilliseconds (actionOf [bodyFrame]) * 1000000).
Proof.
  apply (RenderFacts.animationDelay_recorded dt AttachmentBody hurried
           (system.tickClock hurried) afterHurriedBody (actionOf [bodyFrame]) bodyFrame).
  - vm_compute. lia.
  - vm_compute. reflexivity.
  - vm_compute. discriminate.
  - vm_compute. reflexivity.
Defined.

End Checks.

(** * Further properties of the render system *)

(** ** Which attachments are rendered *)

Module OrderFacts.
Section Order.
Context `{Imports}.

Import character GoIntFacts.

Lemma renderSequence_app (dt : float32) (l1 l2 : list AttachmentType) :
  forall st : system.State,
  system.renderSequence dt (l1 ++ l2) st =
  (st' <- system.renderSequence dt l1 st ;; system.renderSequence dt l2 st').
Proof.
  induction l1 as [| elem rest IH]; intros st; cbn [app system.renderSequence bind].
  - reflexivity.
  - destruct (system.renderAttachment dt elem st) as [s1 | |]; cbn [bind];
      [apply IH | reflexivity | reflexivity].
Qed.

(** [renderCharacter] renders the attachments of [attachmentOrder], one
    after the other. *)
Lemma renderCharacter_sequence (dt : float32) (c : entity.Character)
    (commands : list rendercmd.SpriteRenderCommand) (reads : nat) :
  system.renderCharacter dt c commands reads =
  system.renderSequence dt (order.attachmentOrder c)
    {| system.sprite := commands; system.char := c;
       system.offset := system.zero2; system.clock := reads |}.
Proof.
  unfold system.renderCharacter, order.attachmentOrder.
  destruct (negb (entity.ActionIndex c =? Dead) && negb (entity.ActionIndex c =? Sitting));
    destruct (system.behind c); destruct (system.renderShield c);
    cbn [andb negb app system.when system.renderSequence bind];
    repeat match goal with
           | |- context [system.renderAttachment ?d ?e ?s] =>
               destruct (system.renderAttachment d e s);
               cbn [bind system.when system.renderSequence]
           end;
    reflexivity.
Qed.

(** X1.  A character whose action kind is Dead or Sitting (kinds other than
    StandBy) gets no shadow and no shield: only its Body and its Head are
    rendered, in this order. *)
Theorem dead_or_sitting_body_and_head (dt : float32) (c : entity.Character)
    (commands : list rendercmd.SpriteRenderCommand) (reads : nat) :
  StandBy <> Dead -> StandBy <> Sitting ->
  entity.ActionIndex c = Dead \/ entity.ActionIndex c = Sitting ->
  system.renderCharacter dt c commands reads =
  system.renderSequence dt [AttachmentBody; AttachmentHead]
    {| system.sprite := commands; system.char := c;
       system.offset := system.zero2; system.clock := reads |}.
Proof.
  intros Hdead Hsit Hkind. rewrite renderCharacter_sequence.
  unfold order.attachmentOrder, system.renderShield.
  assert (Hshadow : negb (entity.ActionIndex c =? Dead) &&
                    negb (entity.ActionIndex c =? Sitting) = false).
  { destruct Hkind as [-> | ->]; rewrite Z.eqb_refl; cbn [negb andb];
      [reflexivity | apply andb_false_r]. }
  assert (Hstand : (entity.ActionIndex c =? StandBy) = false).
  { apply Z.eqb_neq. destruct Hkind as [-> | ->]; congruence. }
  rewrite Hshadow, Hstand, !andb_false_r. reflexivity.
Qed.

(** X2.  Without a shield, or in an action kind other than StandBy, the
    shield is never rendered: a character that is neither Dead nor Sitting
    gets its Shadow, Body and Head, in this order, whatever it faces. *)
Theorem no_shield_unless_standing_by (dt : float32) (c : entity.Character)
    (commands : list rendercmd.SpriteRenderCommand) (reads : nat) :
  entity.ActionIndex c <> Dead -> entity.ActionIndex c <> Sitting ->
  entity.HasShield c = false \/ entity.ActionIndex c <> StandBy ->
  system.renderCharacter dt c commands reads =
  system.renderSequence dt [AttachmentShadow; AttachmentBody; AttachmentHead]
    {| system.sprite := commands; system.char := c;
       system.offset := system.zero2; system.clock := reads |}.
Proof.
  intros Hdead Hsit Hshield. rewrite renderCharacter_sequence.
  unfold order.attachmentOrder.
  assert (Hrs : system.renderShield c = false).
  { unfold system.renderShield. destruct Hshield as [-> | Hkind]; [reflexivity|].
    apply Z.eqb_neq in Hkind. rewrite Hkind. apply andb_false_r. }
  apply Z.eqb_neq in Hdead, Hsit.
  rewrite Hrs, Hdead, Hsit, !andb_false_r. reflexivity.
Qed.

(** X9.  For a facing in 0..7 and a table entry in 0..7 the direction of
    [renderCharacter] is their plain sum while the one inside the action
    index is the sum modulo 8: the two agree exactly when the sum is below
    8, and when it is not the behind flag is false. *)
Theorem direction_against_composite (c : entity.Character) :
  0 <= entity.Direction c < 8 ->
  0 <= DirectionTable FixedCameraDirection < 8 ->
  0 <= entity.ActionIndex c < 2 ^ 62 ->
  let sum := entity.Direction c + DirectionTable FixedCameraDirection in
  system.direction c = sum /\
  system.compositeIndex c = entity.ActionIndex c + sum mod 8 /\
  (system.direction c = sum mod 8 <-> sum < 8) /\
  (8 <= sum -> system.behind c = false).
Proof.
  intros Hd Ht Hk sum.
  assert (Hdir : system.direction c = sum).
  { unfold system.direction, add64, rem64.
    rewrite Z.rem_small by lia. apply wrap64_small. unfold in_int64. lia. }
  assert (Hmod : 0 <= sum mod 8 < 8) by (apply Z.mod_pos_bound; lia).
  split; [exact Hdir|]. split; [|split].
  - unfold system.compositeIndex, add64, rem64.
    rewrite (wrap64_small (entity.Direction c + _)) by (unfold in_int64; lia).
    rewrite Z.rem_mod_nonneg by lia. fold sum.
    apply wrap64_small. unfold in_int64. lia.
  - rewrite Hdir. split.
    + intros Heq. lia.
    + intros Hlt. rewrite Z.mod_small; lia.
  - intros Hge. unfold system.behind. rewrite Hdir.
    replace (sum <? 6) with false by (symmetry; apply Z.ltb_ge; lia).
    apply andb_false_r.
Qed.

End Order.
End OrderFacts.

(** ** What one attachment does *)

Module AttachmentFacts.
Section Attachment.
Context `{Imports}.

Import character GoIntFacts ClockFacts.

Lemma appendCommands_nil (st : system.State) : commands.appendCommands [] st = st.
Proof.
  destruct st. unfold commands.appendCommands. cbn. rewrite app_nil_r. reflexivity.
Qed.

(** [resolveFrame] returns as soon as its four steps do. *)
Lemma resolveFrame_from_parts (dt : float32) (elem : AttachmentType) (st : system.State)
    (action : act.Action) (frame : act.ActionFrame) (t i : Z) :
  index (entity.ACT (entity.Files (system.char st) elem))
        (system.actionIdx (system.char st)
           (len (entity.ACT (entity.Files (system.char st) elem)))) = Some action ->
  system.timeNeededForOneFrame action (system.char st) = Ok t ->
  system.frameIndex (entity.PlayMode (system.char st)) (len (act.Frames action))
    (system.elapsedTime
       (SinceMilliseconds (entity.AnimationStartedAt (system.char st)) (system.clock st))
       dt) t = Ok i ->
  index (act.Frames action) i = Some frame ->
  system.resolveFrame dt elem st = Ok (action, frame, system.tickClock st).
Proof.
  intros Hact Ht Hi Hf. unfold system.resolveFrame.
  rewrite Hact. cbn [orPanic bind]. rewrite Ht. cbn [bind]. rewrite Hi. cbn [bind].
  rewrite Hf. reflexivity.
Qed.

Lemma renderLayers_commands (layers : list act.ActionFrameLayer) (sprf : spr.SpriteFile)
    (position : float32 * float32) :
  forall st st' : system.State,
  system.renderLayers layers sprf position st = Ok st' ->
  exists cmds,
    st' = commands.appendCommands cmds st /\
    Forall2 (commands.commandOf (system.char st) sprf position) (system.drawn layers) cmds.
Proof.
  induction layers as [| layer rest IH]; intros st st' Hrun; cbn [system.renderLayers] in Hrun.
  - injection Hrun as <-. exists []. split; [symmetry; apply appendCommands_nil | constructor].
  - unfold system.drawn. cbn [filter]. fold (system.drawn rest).
    destruct (act.SpriteFrameIndex layer <? 0) eqn:Hidx; cbn [negb].
    + apply IH. exact Hrun.
    + unfold system.renderLayer in Hrun. rewrite Hidx in Hrun.
      destruct (NewTextureFromRGBA _) as [texture |] eqn:Htex; [|discriminate].
      destruct (index (spr.Frames sprf) _) as [frame |] eqn:Hframe;
        cbn [orPanic bind] in Hrun; [|discriminate].
      destruct (IH _ _ Hrun) as (cmds & -> & Hall).
      exists (commands.spriteCommand (system.char st) layer frame texture position :: cmds).
      split.
      * unfold commands.appendCommands, system.renderSpriteCommand. cbn.
        rewrite <- app_assoc. reflexivity.
      * constructor; [|exact Hall]. exists texture, frame. auto.
Qed.

(** The two ways [renderFrame] returns. *)
Lemma renderFrame_cases (action : act.Action) (frame : act.ActionFrame)
    (elem : AttachmentType) (st st' : system.State) :
  system.renderFrame action frame elem st = Ok st' ->
  (act.Layers frame = [] /\ st' = system.setOffset system.zero2 st) \/
  (act.Layers frame <> [] /\
   exists cmds,
     Forall2 (commands.commandOf (system.char st)
                (entity.SPR (entity.Files (system.char st) elem))
                (system.layerPosition frame elem (system.offset st)))
             (system.drawn (act.Layers frame)) cmds /\
     st' = system.setChar
             (entity.setAnimationDelay (system.char st)
                (mul64 (act.DurationMilliseconds action) Millisecond))
             (system.setOffset (system.savedOffset frame (system.offset st))
                (commands.appendCommands cmds st))).
Proof.
  unfold system.renderFrame. intros Hrun.
  destruct (Z.eqb_spec (len (act.Layers frame)) 0) as [Hnil | Hsome].
  - left. split; [apply len_zero_nil; exact Hnil|]. injection Hrun as <-. reflexivity.
  - right. split; [intros E; rewrite E in Hsome; apply Hsome; reflexivity|].
    destruct (system.renderLayers _ _ _ st) as [s1 | |] eqn:Hlayers; cbn [bind] in Hrun;
      [|discriminate|discriminate].
    destruct (renderLayers_commands _ _ _ _ _ Hlayers) as (cmds & -> & Hall).
    exists cmds. split; [exact Hall|]. injection Hrun as <-. reflexivity.
Qed.

(** X3.  When an attachment is rendered, every layer of the resolved frame
    with a non-negative sprite index adds exactly one command and a layer
    with a negative index adds none; the command of a layer carries the
    layer's scale and mirror flag, the character's position, the size of the
    sprite frame scaled, and the texture created from that sprite frame. *)
Theorem one_command_per_drawn_layer (dt : float32) (elem : AttachmentType)
    (st s1 st' : system.State) (action : act.Action) (frame : act.ActionFrame) :
  len (entity.ACT (entity.Files (system.char st) elem)) <> 0 ->
  system.resolveFrame dt elem st = Ok (action, frame, s1) ->
  system.renderAttachment dt elem st = Ok st' ->
  exists cmds,
    system.sprite st' = system.sprite st ++ cmds /\
    length cmds = length (system.drawn (act.Layers frame)) /\
    Forall2 (commands.commandOf (system.char st)
               (entity.SPR (entity.Files (system.char st) elem))
               (system.layerPosition frame elem (system.offset st)))
            (system.drawn (act.Layers frame)) cmds.
Proof.
  intros Hlen Hres Hrun.
  rewrite (RenderFacts.renderAttachment_resolved _ _ _ _ _ _ Hlen Hres) in Hrun.
  destruct (renderFrame_cases _ _ _ _ _ Hrun) as [[Hnil ->] | (_ & cmds & Hall & ->)].
  - exists []. rewrite Hnil. cbn. rewrite app_nil_r. repeat split. constructor.
  - exists cmds. cbn. split; [reflexivity|]. split; [|exact Hall].
    symmetry. apply (Forall2_length Hall).
Qed.

(** X4.  A resolved frame without layers is invisible: the attachment adds
    no command, leaves the character (its animation delay included) as it
    was and resets the offset accumulator to zero, even when the frame has a
    Positions entry. *)
Theorem frame_without_layers (dt : float32) (elem : AttachmentType)
    (st s1 : system.State) (action : act.Action) (frame : act.ActionFrame) :
  len (entity.ACT (entity.Files (system.char st) elem)) <> 0 ->
  system.resolveFrame dt elem st = Ok (action, frame, s1) ->
  act.Layers frame = [] ->
  system.renderAttachment dt elem st =
  Ok {| system.sprite := system.sprite st;
        system.char := system.char st;
        system.offset := system.zero2;
        system.clock := S (system.clock st) |}.
Proof.
  intros Hlen Hres Hnil.
  rewrite (RenderFacts.renderAttachment_resolved _ _ _ _ _ _ Hlen Hres).
  unfold system.renderFrame. rewrite Hnil. reflexivity.
Qed.

(** X5.  When the resolved frame has layers and a Positions entry, a Shadow
    or a Head draws its layers shifted by the offset accumulator minus the
    frame's own anchor, a Body or a Shield draws them unshifted, and in
    every case the accumulator then holds the frame's anchor. *)
Theorem anchored_frame_chaining (dt : float32) (elem : AttachmentType)
    (st s1 st' : system.State) (action : act.Action) (frame : act.ActionFrame)
    (p : Z * Z) (others : list (Z * Z)) :
  len (entity.ACT (entity.Files (system.char st) elem)) <> 0 ->
  system.resolveFrame dt elem st = Ok (action, frame, s1) ->
  act.Positions frame = p :: others ->
  act.Layers frame <> [] ->
  system.renderAttachment dt elem st = Ok st' ->
  let shift :=
    match elem with
    | AttachmentBody | AttachmentShield => system.zero2
    | AttachmentShadow | AttachmentHead =>
        (f32_sub (fst (system.offset st)) (f32_of_int (fst p)),
         f32_sub (snd (system.offset st)) (f32_of_int (snd p)))
    end in
  system.offset st' = (f32_of_int (fst p), f32_of_int (snd p)) /\
  exists cmds,
    system.sprite st' = system.sprite st ++ cmds /\
    Forall2 (fun layer cmd => rendercmd.Offset cmd = system.layerOffset layer shift)
            (system.drawn (act.Layers frame)) cmds.
Proof.
  intros Hlen Hres Hpos Hlayers Hrun shift.
  rewrite (RenderFacts.renderAttachment_resolved _ _ _ _ _ _ Hlen Hres) in Hrun.
  destruct (renderFrame_cases _ _ _ _ _ Hrun) as [[Hnil _] | (_ & cmds & Hall & ->)];
    [contradiction|].
  cbn. split.
  - unfold system.savedOffset. rewrite Hpos. reflexivity.
  - exists cmds. split; [reflexivity|].
    assert (Hshift : system.layerPosition frame elem (system.offset st) = shift).
    { unfold system.layerPosition. rewrite Hpos. subst shift.
      destruct elem; reflexivity. }
    cbn [system.tickClock system.char system.offset] in Hall.
    rewrite Hshift in Hall.
    clear - Hall. induction Hall as [| layer cmd ls cs Hone _ IH]; constructor; [|exact IH].
    destruct Hone as (texture & fr & _ & _ & ->). reflexivity.
Qed.

(** X6.  The layers of a frame are rendered to the end exactly when every
    layer with a non-negative sprite index has a sprite frame in the sprite
    file and a texture that can be created; otherwise the loop ends in a
    panic or in [log.Fatal]. *)
Theorem renderLayers_returns_iff (layers : list act.ActionFrameLayer)
    (sprf : spr.SpriteFile) (position : float32 * float32) (st : system.State) :
  (exists st', system.renderLayers layers sprf position st = Ok st') <->
  Forall (commands.renderable sprf) (system.drawn layers).
Proof.
  split.
  - intros [st' Hrun].
    destruct (renderLayers_commands _ _ _ _ _ Hrun) as (cmds & _ & Hall).
    clear - Hall. induction Hall as [| layer cmd ls cs Hone _ IH]; constructor; [|exact IH].
    destruct Hone as (texture & fr & Htex & Hfr & _).
    unfold commands.renderable. rewrite Htex, Hfr. split; discriminate.
  - intros Hall. apply RenderFacts.renderLayers_returns. exact Hall.
Qed.

(** X7.  An action without frames cannot be rendered: whenever the action
    the attachment resolves to has no frame, [renderAttachment] panics, in
    every play mode and with or without a forced duration. *)
Theorem action_without_frames_panics (dt : float32) (elem : AttachmentType)
    (st : system.State) (action : act.Action) :
  let c := system.char st in
  let actions := entity.ACT (entity.Files c elem) in
  len actions <> 0 ->
  index actions (system.actionIdx c (len actions)) = Some action ->
  act.Frames action = [] ->
  system.renderAttachment dt elem st = Panic.
Proof.
  intros c actions Hlen Hidx Hnil.
  unfold system.renderAttachment. fold c actions.
  destruct (Z.eqb_spec (len actions) 0) as [E | _]; [contradiction|].
  unfold system.resolveFrame. fold c actions. rewrite Hidx. cbn [orPanic bind].
  unfold system.timeNeededForOneFrame, system.unclampedTimeForOneFrame.
  rewrite Hnil. cbn [len length Z.of_nat Z.eqb].
  destruct (entity.ForcedDuration c =? 0); cbn [bind]; [|reflexivity].
  unfold system.frameIndex.
  destruct (system.floorAt100 _ =? 0); cbn [bind]; [reflexivity|].
  destruct (entity.PlayMode c =? Repeat); cbn [bind]; reflexivity.
Qed.

(** *** What rendering keeps *)

Lemma setAnimationDelay_same (c : entity.Character) :
  c = entity.setAnimationDelay c (entity.AnimationDelay c).
Proof. destruct c. reflexivity. Qed.

Lemma commandOf_position (c : entity.Character) (sprf : spr.SpriteFile)
    (position : float32 * float32) (layers : list act.ActionFrameLayer)
    (cmds : list rendercmd.SpriteRenderCommand) :
  Forall2 (commands.commandOf c sprf position) layers cmds ->
  Forall (fun cmd => rendercmd.Position cmd = entity.Position c) cmds.
Proof.
  intros Hall. induction Hall as [| layer cmd ls cs Hone _ IH]; constructor; [|exact IH].
  destruct Hone as (texture & fr & _ & _ & ->). reflexivity.
Qed.

(** An attachment appends commands at the character's position, assigns at
    most the animation delay of the character, and reads the clock at most
    once. *)
Lemma renderAttachment_keeps (dt : float32) (elem : AttachmentType)
    (st st' : system.State) :
  system.renderAttachment dt elem st = Ok st' ->
  exists cmds,
    system.sprite st' = system.sprite st ++ cmds /\
    Forall (fun cmd => rendercmd.Position cmd = entity.Position (system.char st)) cmds /\
    system.char st' =
    entity.setAnimationDelay (system.char st) (entity.AnimationDelay (system.char st')) /\
    (system.clock st <= system.clock st' <= S (system.clock st))%nat.
Proof.
  unfold system.renderAttachment. intros Hrun.
  destruct (len (entity.ACT (entity.Files (system.char st) elem)) =? 0).
  - injection Hrun as <-. exists []. rewrite app_nil_r.
    repeat split; try constructor; try lia. apply setAnimationDelay_same.
  - destruct (system.resolveFrame dt elem st) as [[[action frame] s1] | |] eqn:Hres;
      cbn [bind] in Hrun; [|discriminate|discriminate].
    rewrite (resolveFrame_state _ _ _ _ _ _ Hres) in Hrun.
    destruct (renderFrame_cases _ _ _ _ _ Hrun) as [[_ ->] | (_ & cmds & Hall & ->)].
    + exists []. cbn. rewrite app_nil_r.
      repeat split; try constructor; try lia. apply setAnimationDelay_same.
    + exists cmds. cbn. repeat split; try lia.
      apply (commandOf_position _ _ _ _ _ Hall).
Qed.

Lemma renderSequence_keeps (dt : float32) (elems : list AttachmentType) :
  forall st st' : system.State,
  system.renderSequence dt elems st = Ok st' ->
  exists cmds,
    system.sprite st' = system.sprite st ++ cmds /\
    Forall (fun cmd => rendercmd.Position cmd = entity.Position (system.char st)) cmds /\
    system.char st' =
    entity.setAnimationDelay (system.char st) (entity.AnimationDelay (system.char st')) /\
    (system.clock st <= system.clock st' <= system.clock st + length elems)%nat.
Proof.
  induction elems as [| elem rest IH]; intros st st' Hrun; cbn [system.renderSequence] in Hrun.
  - injection Hrun as <-. exists []. rewrite app_nil_r.
    repeat split; try constructor; try lia. apply setAnimationDelay_same.
  - destruct (system.renderAttachment dt elem st) as [s1 | |] eqn:Hone;
      cbn [bind] in Hrun; [|discriminate|discriminate].
    destruct (renderAttachment_keeps _ _ _ _ Hone) as (c1 & Hs1 & Hp1 & Hc1 & Hk1).
    destruct (IH _ _ Hrun) as (c2 & Hs2 & Hp2 & Hc2 & Hk2).
    exists (c1 ++ c2). rewrite Hs2, Hs1, app_assoc.
    split; [reflexivity|]. split; [|split].
    + apply Forall_app. split; [exact Hp1|].
      rewrite Hc1 in Hp2. exact Hp2.
    + rewrite Hc2. rewrite Hc1 at 1. reflexivity.
    + cbn [length]. lia.
Qed.

(** X10.  When [renderCharacter] returns, the commands it was given are
    still there, in front; every command it added carries the position of
    the character; the character is the one given, up to its animation
    delay; and the clock was read at most four times. *)
Theorem renderCharacter_keeps (dt : float32) (c : entity.Character)
    (commands : list rendercmd.SpriteRenderCommand) (reads : nat) (st' : system.State) :
  system.renderCharacter dt c commands reads = Ok st' ->
  exists cmds,
    system.sprite st' = commands ++ cmds /\
    Forall (fun cmd => rendercmd.Position cmd = entity.Position c) cmds /\
    system.char st' = entity.setAnimationDelay c (entity.AnimationDelay (system.char st')) /\
    (reads <= system.clock st' <= reads + 4)%nat.
Proof.
  rewrite OrderFacts.renderCharacter_sequence. intros Hrun.
  destruct (renderSequence_keeps _ _ _ _ Hrun) as (cmds & Hs & Hp & Hc & Hk).
  exists cmds. cbn in *. repeat split; try assumption; try lia.
  assert (Hlen : (length (order.attachmentOrder c) <= 4)%nat).
  { unfold order.attachmentOrder.
    destruct (negb (entity.ActionIndex c =? Dead) && negb (entity.ActionIndex c =? Sitting));
      destruct (system.behind c); destruct (system.renderShield c); cbn; lia. }
  lia.
Qed.

(** X11.  An attachment whose action table is empty is skipped without a
    trace: leaving it out of a sequence of attachments changes nothing,
    neither the commands nor the offsets chained across it. *)
Theorem empty_table_is_skipped (dt : float32) (before after : list AttachmentType)
    (elem : AttachmentType) (st : system.State) :
  entity.ACT (entity.Files (system.char st) elem) = [] ->
  system.renderSequence dt (before ++ elem :: after) st =
  system.renderSequence dt (before ++ after) st.
Proof.
  intros Hempty. rewrite !OrderFacts.renderSequence_app.
  destruct (system.renderSequence dt before st) as [s1 | |] eqn:Hfirst; cbn [bind];
    [|reflexivity|reflexivity].
  destruct (renderSequence_keeps _ _ _ _ Hfirst) as (_ & _ & _ & Hc & _).
  cbn [system.renderSequence]. unfold system.renderAttachment at 1.
  rewrite Hc. cbn [entity.setAnimationDelay entity.Files]. rewrite Hempty.
  reflexivity.
Qed.

(** *** The clock at its edges *)

(** X8.  In play mode Repeat a negative elapsed time is not wrapped into the
    frames: for N > 0 frames (N other than 3) and t > 0 per frame the index
    is minus ((-elapsed / t) mod N), so it is 0 as long as the elapsed time
    stays above -t, and once it is not 0 the frame lookup is out of range. *)
Theorem frameIndex_negative_elapsed (frames : list act.ActionFrame) (elapsed t : Z) :
  0 < len frames -> len frames <> 3 -> 0 < t -> - 2 ^ 63 < elapsed < 0 ->
  let i := - ((- elapsed / t) mod len frames) in
  system.frameIndex Repeat (len frames) elapsed t = Ok i /\
  (- t < elapsed -> i = 0) /\
  (i <> 0 -> index frames i = None).
Proof.
  intros HN H3 Ht He i.
  assert (Hq : Z.quot elapsed t = - (- elapsed / t)).
  { replace elapsed with (- - elapsed) at 1 by lia.
    rewrite Z.quot_opp_l by lia. rewrite Z.quot_div_nonneg by lia. reflexivity. }
  assert (Hqb : 0 <= - elapsed / t <= - elapsed).
  { split; [apply Z.div_pos; lia|]. apply Z.div_le_upper_bound; nia. }
  assert (Hm : 0 <= (- elapsed / t) mod len frames < len frames)
    by (apply Z.mod_pos_bound; lia).
  split; [|split].
  - unfold system.frameIndex.
    destruct (Z.eqb_spec t 0) as [E | _]; [lia|].
    rewrite Z.eqb_refl.
    destruct (Z.eqb_spec (len frames) 0) as [E | _]; [lia|].
    cbn [bind].
    destruct (Z.eqb_spec (len frames) 3) as [E | _]; [contradiction|].
    unfold quot64, rem64. rewrite Hq, wrap64_small by (unfold in_int64; lia).
    rewrite Z.rem_opp_l by lia. rewrite Z.rem_mod_nonneg by lia. reflexivity.
  - intros Hsmall. subst i. rewrite Z.div_small by lia.
    rewrite Z.mod_0_l by lia. reflexivity.
  - intros Hi. unfold index.
    destruct (Z.ltb_spec i 0) as [_ | Hge]; [reflexivity|]. subst i. lia.
Qed.

(** X14.  A tick delta below one in magnitude (a frame time in seconds, for
    instance) is truncated to zero: the elapsed time is the reading of the
    clock itself. *)
Theorem elapsedTime_small_delta (since : Z) (s : bool) (m : positive) (e : Z) :
  in_int64 since -> e < 0 -> Zpos m < 2 ^ (- e) ->
  system.elapsedTime since (S754_finite s m e) = since.
Proof.
  intros Hs He Hm. unfold system.elapsedTime, system.int64, int64_of_float.
  destruct e as [| p | p]; try lia.
  cbn [truncate]. replace (- Z.neg p) with (Zpos p) in Hm by lia.
  rewrite Z.div_small by lia.
  replace (cond_Zopp s 0) with 0 by (destruct s; reflexivity).
  cbn [Z.leb Z.ltb andb]. unfold sub64. rewrite Z.sub_0_r.
  apply wrap64_small. exact Hs.
Qed.

(** *** The commands of a character, attachment by attachment *)

(** Whenever [renderAttachment] returns it has appended the commands of the
    frame it resolved. *)
Lemma renderAttachment_emits (dt : float32) (elem : AttachmentType)
    (st st' : system.State) :
  system.renderAttachment dt elem st = Ok st' ->
  exists block, emission.emits dt elem st block st'.
Proof.
  intros Hrun. unfold emission.emits.
  assert (Hsame := Hrun). unfold system.renderAttachment in Hrun.
  destruct (len (entity.ACT (entity.Files (system.char st) elem)) =? 0) eqn:Hlen.
  - injection Hrun as <-. exists []. split; [exact Hsame|].
    split; [rewrite app_nil_r; reflexivity | reflexivity].
  - destruct (system.resolveFrame dt elem st) as [[[action frame] s1] | |] eqn:Hres;
      cbn [bind] in Hrun; [|discriminate|discriminate].
    pose proof (resolveFrame_state _ _ _ _ _ _ Hres) as ->.
    destruct (renderFrame_cases _ _ _ _ _ Hrun) as [[Hnil Hst] | (_ & cmds & Hall & Hst)].
    + exists []. split; [exact Hsame|]. split; [rewrite Hst, app_nil_r; reflexivity|].
      exists action, frame. split; [reflexivity|]. rewrite Hnil. constructor.
    + exists cmds. split; [exact Hsame|]. split; [rewrite Hst; reflexivity|].
      exists action, frame. split; [reflexivity | exact Hall].
Qed.

(** Four attachments rendered one after the other append their four blocks
    of commands, in that order. *)
Lemma renderSequence_emits (dt : float32) (e1 e2 e3 e4 : AttachmentType)
    (st st' : system.State) :
  system.renderSequence dt [e1; e2; e3; e4] st = Ok st' ->
  exists s1 s2 s3 b1 b2 b3 b4,
    emission.emits dt e1 st b1 s1 /\
    emission.emits dt e2 s1 b2 s2 /\
    emission.emits dt e3 s2 b3 s3 /\
    emission.emits dt e4 s3 b4 st' /\
    system.sprite st' = system.sprite st ++ b1 ++ b2 ++ b3 ++ b4.
Proof.
  cbn [system.renderSequence]. intros Hrun.
  destruct (system.renderAttachment dt e1 st) as [s1 | |] eqn:H1; cbn [bind] in Hrun;
    [|discriminate|discriminate].
  destruct (system.renderAttachment dt e2 s1) as [s2 | |] eqn:H2; cbn [bind] in Hrun;
    [|discriminate|discriminate].
  destruct (system.renderAttachment dt e3 s2) as [s3 | |] eqn:H3; cbn [bind] in Hrun;
    [|discriminate|discriminate].
  destruct (system.renderAttachment dt e4 s3) as [s4 | |] eqn:H4; cbn [bind] in Hrun;
    [|discriminate|discriminate].
  injection Hrun as <-.
  destruct (renderAttachment_emits _ _ _ _ H1) as [b1 E1].
  destruct (renderAttachment_emits _ _ _ _ H2) as [b2 E2].
  destruct (renderAttachment_emits _ _ _ _ H3) as [b3 E3].
  destruct (renderAttachment_emits _ _ _ _ H4) as [b4 E4].
  exists s1, s2, s3, b1, b2, b3, b4. repeat (split; [assumption|]).
  destruct E4 as (_ & -> & _). destruct E3 as (_ & -> & _).
  destruct E2 as (_ & -> & _). destruct E1 as (_ & -> & _).
  rewrite <- !app_assoc. reflexivity.
Qed.

(** C3.  With a shield equipped and the action kind StandBy (a kind other
    than Dead and Sitting), [renderCharacter] renders Shadow, Shield, Body,
    Head in this order when the behind flag is true, and Shadow, Body, Head,
    Shield when it is false; and whenever it returns, the commands it has
    emitted are, after the commands it was given, the block of each of the
    four attachments in that order, each block holding one command per drawn
    layer of the frame resolved for the attachment, made from the sprite
    file of the attachment. *)
Theorem renderCharacter_command_order (dt : float32) (c : entity.Character)
    (commands : list rendercmd.SpriteRenderCommand) (reads : nat) :
  StandBy <> Dead -> StandBy <> Sitting ->
  entity.HasShield c = true -> entity.ActionIndex c = StandBy ->
  let st := {| system.sprite := commands; system.char := c;
               system.offset := system.zero2; system.clock := reads |} in
  (system.behind c = true ->
   system.renderCharacter dt c commands reads =
   system.renderSequence dt
     [AttachmentShadow; AttachmentShield; AttachmentBody; AttachmentHead] st /\
   forall st',
     system.renderCharacter dt c commands reads = Ok st' ->
     exists s1 s2 s3 shadow shield body head,
       emission.emits dt AttachmentShadow st shadow s1 /\
       emission.emits dt AttachmentShield s1 shield s2 /\
       emission.emits dt AttachmentBody s2 body s3 /\
       emission.emits dt AttachmentHead s3 head st' /\
       system.sprite st' = commands ++ shadow ++ shield ++ body ++ head) /\
  (system.behind c = false ->
   system.renderCharacter dt c commands reads =
   system.renderSequence dt
     [AttachmentShadow; AttachmentBody; AttachmentHead; AttachmentShield] st /\
   forall st',
     system.renderCharacter dt c commands reads = Ok st' ->
     exists s1 s2 s3 shadow body head shield,
       emission.emits dt AttachmentShadow st shadow s1 /\
       emission.emits dt AttachmentBody s1 body s2 /\
       emission.emits dt AttachmentHead s2 head s3 /\
       emission.emits dt AttachmentShield s3 shield st' /\
       system.sprite st' = commands ++ shadow ++ body ++ head ++ shield).
Proof.
  intros Hdead Hsit Hshield Hkind st.
  assert (Hrs : system.renderShield c = true).
  { unfold system.renderShield. rewrite Hshield, Hkind, Z.eqb_refl. reflexivity. }
  assert (Hshadow : negb (entity.ActionIndex c =? Dead) &&
                    negb (entity.ActionIndex c =? Sitting) = true).
  { rewrite Hkind.
    destruct (Z.eqb_spec StandBy Dead) as [E | _]; [contradiction|].
    destruct (Z.eqb_spec StandBy Sitting) as [E | _]; [contradiction|].
    reflexivity. }
  split; intros Hb.
  - assert (Hseq : system.renderCharacter dt c commands reads =
                   system.renderSequence dt
                     [AttachmentShadow; AttachmentShield; AttachmentBody; AttachmentHead] st).
    { rewrite OrderFacts.renderCharacter_sequence. unfold order.attachmentOrder.
      rewrite Hshadow, Hrs, Hb. reflexivity. }
    split; [exact Hseq|]. intros st' Hrun. rewrite Hseq in Hrun.
    apply (renderSequence_emits _ _ _ _ _ _ _ Hrun).
  - assert (Hseq : system.renderCharacter dt c commands reads =
                   system.renderSequence dt
                     [AttachmentShadow; AttachmentBody; AttachmentHead; AttachmentShield] st).
    { rewrite OrderFacts.renderCharacter_sequence. unfold order.attachmentOrder.
      rewrite Hshadow, Hrs, Hb. reflexivity. }
    split; [exact Hseq|]. intros st' Hrun. rewrite Hseq in Hrun.
    apply (renderSequence_emits _ _ _ _ _ _ _ Hrun).
Qed.

End Attachment.
End AttachmentFacts.

(** ** The registry *)

Module RegistryFacts.
Section Registry.
Context `{Imports} `{registry.AssetSource}.

Import GoIntFacts.

Lemma Itoa_inj (a b : Z) : registry.Itoa a = registry.Itoa b -> a = b.
Proof.
  unfold registry.Itoa. intros Heq.
  assert (Hn : forall z, Z.to_int z <> Decimal.Pos Decimal.Nil /\
                         Z.to_int z <> Decimal.Neg Decimal.Nil).
  { intros [| p | p]; cbn; split; try discriminate;
      intros E; injection E as E; apply (DecimalPos.Unsigned.to_uint_nonnil p E). }
  apply (f_equal DecimalString.NilZero.int_of_string) in Heq.
  rewrite !DecimalString.NilZero.isi in Heq by apply Hn.
  injection Heq as Heq. apply DecimalZ.to_int_inj. exact Heq.
Qed.

Lemma wrap64_uint64 (a : Z) :
  0 <= a < 2 ^ 64 -> wrap64 a = if a <? 2 ^ 63 then a else a - 2 ^ 64.
Proof.
  intros Ha. unfold wrap64.
  destruct (Z.ltb_spec a (2 ^ 63)) as [Hlt | Hge].
  - rewrite Z.mod_small; lia.
  - replace (a + 2 ^ 63) with (a - 2 ^ 63 + 1 * 2 ^ 64) by lia.
    rewrite Z.mod_add by lia. rewrite Z.mod_small; lia.
Qed.

Lemma key_inj (a b : Z) :
  0 <= a < 2 ^ 64 -> 0 <= b < 2 ^ 64 -> registry.key a = registry.key b -> a = b.
Proof.
  intros Ha Hb Heq. unfold registry.key in Heq. apply Itoa_inj in Heq.
  rewrite (wrap64_uint64 a Ha), (wrap64_uint64 b Hb) in Heq.
  destruct (a <? 2 ^ 63) eqn:Ea; destruct (b <? 2 ^ 63) eqn:Eb;
    try apply Z.ltb_lt in Ea; try apply Z.ltb_ge in Ea;
    try apply Z.ltb_lt in Eb; try apply Z.ltb_ge in Eb; lia.
Qed.

Lemma key_eqb (a b : Z) :
  0 <= a < 2 ^ 64 -> 0 <= b < 2 ^ 64 -> a <> b ->
  String.eqb (registry.key a) (registry.key b) = false.
Proof.
  intros Ha Hb Hne. apply String.eqb_neq. intros Heq. apply Hne.
  apply (key_inj a b Ha Hb Heq).
Qed.

(** X12.  Two entities with different identifiers never share a key of the
    registry, although the identifier passes through [int] (where it wraps
    above 2^63) and through its decimal text. *)
Theorem keys_of_distinct_ids_differ (a b : Z) :
  0 <= a < 2 ^ 64 -> 0 <= b < 2 ^ 64 -> a <> b ->
  registry.key a <> registry.key b.
Proof.
  intros Ha Hb Hne Heq. apply Hne. apply (key_inj a b Ha Hb Heq).
Qed.

(** X13.  When the attachment component of a character can be built, [Add]
    returns and registers the character, with the component set, under the
    key of its identifier; every entity with another identifier stays as it
    was, and so do the commands.  When the component cannot be built the
    process ends in [log.Fatal]. *)
Theorem Add_registers (e : registry.Registered) (s : registry.CharacterRenderSystem) :
  0 <= registry.ID e < 2 ^ 64 ->
  (forall cmp,
     registry.NewCharacterAttachmentComponent (registry.configOf e) = Some cmp ->
     exists s',
       registry.Add e s = Ok s' /\
       registry.characters s' (registry.key (registry.ID e)) =
       Some (registry.setState e
               (registry.SetCharacterAttachmentComponent (registry.state e) cmp)) /\
       (forall b, 0 <= b < 2 ^ 64 -> b <> registry.ID e ->
          registry.characters s' (registry.key b) =
          registry.characters s (registry.key b)) /\
       registry.RenderCommands s' = registry.RenderCommands s) /\
  (registry.NewCharacterAttachmentComponent (registry.configOf e) = None ->
   registry.Add e s = Fatal).
Proof.
  intros Hid. split.
  - intros cmp Hcmp. unfold registry.Add. rewrite Hcmp.
    eexists. split; [reflexivity|]. cbn. unfold registry.insert.
    rewrite String.eqb_refl. split; [reflexivity|]. split; [|reflexivity].
    intros b Hb Hne. rewrite key_eqb by (assumption || congruence). reflexivity.
  - intros Hnone. unfold registry.Add. rewrite Hnone. reflexivity.
Qed.

(** X15.  [Remove] unregisters the entity of the identifier given and no
    other; removing an entity that was added to a registry without it gives
    back, for every identifier, what the registry held before. *)
Theorem Remove_unregisters (e : registry.Registered)
    (s s' : registry.CharacterRenderSystem) (b : Z) :
  0 <= registry.ID e < 2 ^ 64 -> 0 <= b < 2 ^ 64 ->
  registry.characters (registry.Remove (registry.ID e) s)
    (registry.key (registry.ID e)) = None /\
  (b <> registry.ID e ->
   registry.characters (registry.Remove (registry.ID e) s) (registry.key b) =
   registry.characters s (registry.key b)) /\
  (registry.Add e s = Ok s' ->
   registry.characters s (registry.key (registry.ID e)) = None ->
   registry.characters (registry.Remove (registry.ID e) s') (registry.key b) =
   registry.characters s (registry.key b)).
Proof.
  intros Hid Hb. unfold registry.Remove, registry.delete. cbn.
  rewrite String.eqb_refl. split; [reflexivity|]. split.
  - intros Hne. rewrite key_eqb by (assumption || congruence). reflexivity.
  - intros Hadd Habsent. unfold registry.Add in Hadd.
    destruct (registry.NewCharacterAttachmentComponent _) as [cmp |]; [|discriminate].
    injection Hadd as <-. cbn. unfold registry.insert.
    destruct (Z.eq_dec b (registry.ID e)) as [-> | Hne].
    + rewrite String.eqb_refl. symmetry. exact Habsent.
    + rewrite key_eqb by (assumption || congruence). reflexivity.
Qed.

(** *** Update *)

Lemma setState_same (e : registry.Registered) :
  e = registry.setState e
        (entity.setAnimationDelay (registry.state e)
           (entity.AnimationDelay (registry.state e))).
Proof. destruct e as [i g j h n c]. destruct c. reflexivity. Qed.

(** The loop keeps the commands it starts from and adds commands at the
    positions of characters it visits; it keeps the keys of the registry and
    every character up to its animation delay. *)
Lemma renderEach_keeps (dt : float32) (visit : list String.string) :
  forall (s s' : registry.CharacterRenderSystem) (reads reads' : nat),
  registry.renderEach dt visit s reads = Ok (s', reads') ->
  (forall cmd, In cmd (registry.RenderCommands s') ->
     In cmd (registry.RenderCommands s) \/
     exists k e, In k visit /\ registry.characters s k = Some e /\
                 rendercmd.Position cmd = entity.Position (registry.state e)) /\
  (forall k,
     match registry.characters s k, registry.characters s' k with
     | None, None => True
     | Some e, Some e' =>
         exists d, e' = registry.setState e (entity.setAnimationDelay (registry.state e) d)
     | _, _ => False
     end).
Proof.
  induction visit as [| k rest IH]; intros s s' reads reads' Hrun;
    cbn [registry.renderEach] in Hrun.
  - injection Hrun as <- <-. split; [auto|].
    intros k. destruct (registry.characters s k) as [e |]; [|exact I].
    exists (entity.AnimationDelay (registry.state e)). apply setState_same.
  - destruct (registry.characters s k) as [e |] eqn:Hk.
    + destruct (system.renderCharacter dt (registry.state e) (registry.RenderCommands s) reads)
        as [st | |] eqn:Hone; cbn [bind] in Hrun; [|discriminate|discriminate].
      rewrite OrderFacts.renderCharacter_sequence in Hone.
      destruct (AttachmentFacts.renderSequence_keeps _ _ _ _ Hone)
        as (cmds & Hs & Hp & Hc & _).
      cbn [system.sprite system.char] in Hs, Hp, Hc.
      destruct (IH _ _ _ _ Hrun) as [Hcmds Hreg]. cbn in Hcmds, Hreg. split.
      * intros cmd Hin. destruct (Hcmds cmd Hin) as [Hold | (k' & e' & Hin' & Hk' & Hpos)].
        -- rewrite Hs in Hold. apply in_app_or in Hold. destruct Hold as [Hold | Hnew].
           ++ left. exact Hold.
           ++ right. exists k, e. split; [left; reflexivity|]. split; [exact Hk|].
              rewrite Forall_forall in Hp. apply Hp. exact Hnew.
        -- right. unfold registry.insert in Hk'.
           destruct (String.eqb_spec k k') as [<- | Hne].
           ++ injection Hk' as <-. exists k, e. split; [left; reflexivity|].
              split; [exact Hk|]. rewrite Hpos. cbn. rewrite Hc. reflexivity.
           ++ exists k', e'. split; [right; exact Hin'|]. split; assumption.
      * intros k'. specialize (Hreg k'). unfold registry.insert in Hreg.
        destruct (String.eqb_spec k k') as [Heq | Hne].
        -- subst k'. rewrite Hk. destruct (registry.characters s' k) as [e' |]; [|contradiction].
           destruct Hreg as [d ->]. exists d. cbn. rewrite Hc. reflexivity.
        -- exact Hreg.
    + destruct (IH _ _ _ _ Hrun) as [Hcmds Hreg]. split; [|exact Hreg].
      intros cmd Hin. destruct (Hcmds cmd Hin) as [Hold | (k' & e' & Hin' & Hk' & Hpos)].
      * left. exact Hold.
      * right. exists k', e'. split; [right; exact Hin'|]. split; assumption.
Qed.

(** X16.  After [Update] returns, every command of the system carries the
    position of a character that is registered and was visited: nothing is
    left of the commands of the tick before, and nothing is drawn for an
    entity that was removed. *)
Theorem Update_commands_of_registered (dt : float32) (visit : list String.string)
    (s s' : registry.CharacterRenderSystem) (reads reads' : nat)
    (cmd : rendercmd.SpriteRenderCommand) :
  registry.Update dt visit s reads = Ok (s', reads') ->
  In cmd (registry.RenderCommands s') ->
  exists k e, In k visit /\ registry.characters s k = Some e /\
              rendercmd.Position cmd = entity.Position (registry.state e).
Proof.
  unfold registry.Update. intros Hrun Hin.
  destruct (renderEach_keeps _ _ _ _ _ _ Hrun) as [Hcmds _].
  destruct (Hcmds cmd Hin) as [[] | Hfound]. exact Hfound.
Qed.

(** X17.  [Update] neither registers nor unregisters: after it returns the
    registry has the keys it had, and each character is the one it was up to
    its animation delay. *)
Theorem Update_keeps_registry (dt : float32) (visit : list String.string)
    (s s' : registry.CharacterRenderSystem) (reads reads' : nat) (k : String.string) :
  registry.Update dt visit s reads = Ok (s', reads') ->
  match registry.characters s k, registry.characters s' k with
  | None, None => True
  | Some e, Some e' =>
      exists d, e' = registry.setState e (entity.setAnimationDelay (registry.state e) d)
  | _, _ => False
  end.
Proof.
  unfold registry.Update. intros Hrun.
  destruct (renderEach_keeps _ _ _ _ _ _ Hrun) as [_ Hreg].
  exact (Hreg k).
Qed.

End Registry.
End RegistryFacts.

(** ** The further properties on the concrete settings *)

Module MoreChecks.

Import character scenario troupe.
#[local] Existing Instance imports.
#[local] Existing Instance assets.

(** An outcome that is [Ok] is the one [run] and [orElse] extract; a list
    that is not empty holds its head. *)
Lemma run_ok (r : Outcome system.State) (otherwise : system.State) :
  isOk r = true -> r = Ok (run r otherwise).
Proof. destruct r; cbn; intros E; [reflexivity | discriminate | discriminate]. Qed.

Lemma orElse_ok {A : Type} (r : Outcome A) (otherwise : A) :
  isOk r = true -> r = Ok (orElse r otherwise).
Proof. destruct r; cbn; intros E; [reflexivity | discriminate | discriminate]. Qed.

Lemma hd_in {A : Type} (l : list A) (d : A) : nonEmpty l = true -> In (hd d l) l.
Proof. destruct l; cbn; intros E; [discriminate | left; reflexivity]. Qed.

Lemma dead_or_sitting_body_and_head_witness :
  system.renderCharacter dt (variant [headFrame] 64 true) [] 0 =
  system.renderSequence dt [AttachmentBody; AttachmentHead]
    (start (variant [headFrame] 64 true)).
Proof.
  apply (OrderFacts.dead_or_sitting_body_and_head dt (variant [headFrame] 64 true) [] 0).
  - vm_compute. lia.
  - vm_compute. lia.
  - left. reflexivity.
Defined.

Lemma no_shield_unless_standing_by_witness :
  system.renderCharacter dt (variant [headFrame] 0 true) [] 0 =
  system.renderSequence dt [AttachmentShadow; AttachmentBody; AttachmentHead]
    (start (variant [headFrame] 0 true)).
Proof.
  apply (OrderFacts.no_shield_unless_standing_by dt (variant [headFrame] 0 true) [] 0).
  - vm_compute. lia.
  - vm_compute. lia.
  - right. vm_compute. lia.
Defined.

Lemma direction_against_composite_witness :
  system.direction shiftedKnight = 7 + 1 /\
  system.compositeIndex shiftedKnight = 32 + (7 + 1) mod 8 /\
  (system.direction shiftedKnight = (7 + 1) mod 8 <-> 7 + 1 < 8) /\
  (8 <= 7 + 1 -> system.behind shiftedKnight = false).
Proof.
  apply (OrderFacts.direction_against_composite shiftedKnight).
  - cbn. lia.
  - vm_compute. split; [discriminate | reflexivity].
  - cbn. lia.
Defined.

Lemma one_command_per_drawn_layer_witness :
  exists cmds,
    system.sprite (headDone [anchoredFrame]) =
    system.sprite (bodyDone [anchoredFrame]) ++ cmds /\
    length cmds = length (system.drawn (act.Layers anchoredFrame)) /\
    Forall2 (commands.commandOf (system.char (bodyDone [anchoredFrame]))
               (entity.SPR (entity.Files (system.char (bodyDone [anchoredFrame]))
                              AttachmentHead))
               (system.layerPosition anchoredFrame AttachmentHead
                  (system.offset (bodyDone [anchoredFrame]))))
            (system.drawn (act.Layers anchoredFrame)) cmds.
Proof.
  apply (AttachmentFacts.one_command_per_drawn_layer dt AttachmentHead
           (bodyDone [anchoredFrame]) (system.tickClock (bodyDone [anchoredFrame]))
           (headDone [anchoredFrame]) (headActionOf [anchoredFrame]) anchoredFrame).
  - vm_compute. lia.
  - apply (AttachmentFacts.resolveFrame_from_parts _ _ _ _ _ 150 0);
      vm_compute; reflexivity.
  - apply run_ok. vm_compute. reflexivity.
Defined.

Lemma frame_without_layers_witness :
  system.renderAttachment dt AttachmentHead (bodyDone [emptyFrame]) =
  Ok {| system.sprite := system.sprite (bodyDone [emptyFrame]);
        system.char := system.char (bodyDone [emptyFrame]);
        system.offset := system.zero2;
        system.clock := S (system.clock (bodyDone [emptyFrame])) |}.
Proof.
  apply (AttachmentFacts.frame_without_layers dt AttachmentHead (bodyDone [emptyFrame])
           (system.tickClock (bodyDone [emptyFrame])) (headActionOf [emptyFrame]) emptyFrame).
  - vm_compute. lia.
  - apply (AttachmentFacts.resolveFrame_from_parts _ _ _ _ _ 150 0);
      vm_compute; reflexivity.
  - reflexivity.
Defined.

Lemma anchored_frame_chaining_witness :
  system.offset (headDone [anchoredFrame]) = (f32_of_int 2, f32_of_int 1) /\
  exists cmds,
    system.sprite (headDone [anchoredFrame]) =
    system.sprite (bodyDone [anchoredFrame]) ++ cmds /\
    Forall2 (fun layer cmd =>
               rendercmd.Offset cmd =
               system.layerOffset layer
                 (f32_sub (f32_of_int 10) (f32_of_int 2),
                  f32_sub (f32_of_int 5) (f32_of_int 1)))
            (system.drawn (act.Layers anchoredFrame)) cmds.
Proof.
  apply (AttachmentFacts.anchored_frame_chaining dt AttachmentHead
           (bodyDone [anchoredFrame]) (system.tickClock (bodyDone [anchoredFrame]))
           (headDone [anchoredFrame]) (headActionOf [anchoredFrame]) anchoredFrame
           (2, 1) []).
  - vm_compute. lia.
  - apply (AttachmentFacts.resolveFrame_from_parts _ _ _ _ _ 150 0);
      vm_compute; reflexivity.
  - reflexivity.
  - discriminate.
  - apply run_ok. vm_compute. reflexivity.
Defined.

Lemma action_without_frames_panics_witness :
  system.renderAttachment dt AttachmentHead (start (variant [] 32 false)) = Panic.
Proof.
  apply (AttachmentFacts.action_without_frames_panics dt AttachmentHead
           (start (variant [] 32 false)) (headActionOf [])).
  - vm_compute. lia.
  - vm_compute. reflexivity.
  - reflexivity.
Defined.

Lemma frameIndex_negative_elapsed_witness :
  system.frameIndex Repeat (len (act.Frames fourFrames)) (-250) 100 = Ok (-2) /\
  index (act.Frames fourFrames) (-2) = None.
Proof.
  destruct (AttachmentFacts.frameIndex_negative_elapsed (act.Frames fourFrames) (-250) 100)
    as (Hindex & _ & Hlookup).
  - vm_compute. reflexivity.
  - vm_compute. discriminate.
  - lia.
  - lia.
  - split; [exact Hindex|]. apply Hlookup. vm_compute. discriminate.
Defined.

Lemma renderCharacter_keeps_witness :
  exists cmds,
    system.sprite afterKnight = [] ++ cmds /\
    Forall (fun cmd => rendercmd.Position cmd = entity.Position (knight 3 0)) cmds /\
    system.char afterKnight =
    entity.setAnimationDelay (knight 3 0) (entity.AnimationDelay (system.char afterKnight)) /\
    (0 <= system.clock afterKnight <= 0 + 4)%nat.
Proof.
  apply (AttachmentFacts.renderCharacter_keeps dt (knight 3 0) [] 0 afterKnight).
  apply run_ok. vm_compute. reflexivity.
Defined.

Lemma empty_table_is_skipped_witness :
  system.renderSequence dt ([AttachmentBody] ++ AttachmentShadow :: [AttachmentHead])
    (start (variant [anchoredFrame] 32 false)) =
  system.renderSequence dt ([AttachmentBody] ++ [AttachmentHead])
    (start (variant [anchoredFrame] 32 false)).
Proof.
  apply (AttachmentFacts.empty_table_is_skipped dt [AttachmentBody] [AttachmentHead]
           AttachmentShadow (start (variant [anchoredFrame] 32 false))).
  reflexivity.
Defined.

Lemma elapsedTime_small_delta_witness :
  system.elapsedTime 5000 sixtieth = 5000.
Proof.
  apply (AttachmentFacts.elapsedTime_small_delta 5000 false 8947849 (-29)).
  - unfold in_int64. lia.
  - lia.
  - vm_compute. reflexivity.
Defined.

Lemma keys_of_distinct_ids_differ_witness :
  registry.key 1 <> registry.key (2 ^ 63 + 5).
Proof.
  apply (RegistryFacts.keys_of_distinct_ids_differ 1 (2 ^ 63 + 5)); lia.
Defined.

Lemma Add_registers_witness :
  exists s',
    registry.Add (recruit 1 0 100) system0 = Ok s' /\
    registry.characters s' (registry.key 1) =
    Some (registry.setState (recruit 1 0 100)
            (registry.SetCharacterAttachmentComponent
               (registry.state (recruit 1 0 100)) files)) /\
    (forall b, 0 <= b < 2 ^ 64 -> b <> 1 ->
       registry.characters s' (registry.key b) =
       registry.characters system0 (registry.key b)) /\
    registry.RenderCommands s' = registry.RenderCommands system0.
Proof.
  destruct (RegistryFacts.Add_registers (recruit 1 0 100) system0) as [Hadd _].
  - cbn. lia.
  - apply (Hadd files). reflexivity.
Defined.

Lemma Remove_unregisters_witness :
  registry.characters (registry.Remove 1 system2) (registry.key 1) = None /\
  registry.characters (registry.Remove 1 system2) (registry.key (2 ^ 63 + 5)) =
  registry.characters system2 (registry.key (2 ^ 63 + 5)) /\
  registry.characters (registry.Remove (2 ^ 63 + 5) system2) (registry.key 1) =
  registry.characters system1 (registry.key 1).
Proof.
  destruct (RegistryFacts.Remove_unregisters (recruit 1 0 100) system2 system2 (2 ^ 63 + 5))
    as (Hgone & Hother & _); [cbn; lia | lia |].
  destruct (RegistryFacts.Remove_unregisters (recruit (2 ^ 63 + 5) 3 200) system1 system2 1)
    as (_ & _ & Hback); [cbn; lia | lia |].
  split; [exact Hgone|]. split.
  - apply Hother. cbn. lia.
  - apply Hback.
    + apply orElse_ok. vm_compute. reflexivity.
    + vm_compute. reflexivity.
Defined.

Lemma Update_commands_of_registered_witness :
  exists k e, In k visitBoth /\ registry.characters system2 k = Some e /\
              rendercmd.Position firstCommand = entity.Position (registry.state e).
Proof.
  apply (RegistryFacts.Update_commands_of_registered dt visitBoth system2
           (fst afterUpdate) 0 (snd afterUpdate) firstCommand).
  - rewrite <- surjective_pairing. apply orElse_ok. vm_compute. reflexivity.
  - apply hd_in. vm_compute. reflexivity.
Defined.

Lemma Update_keeps_registry_witness :
  match registry.characters system2 (registry.key 1),
        registry.characters (fst afterUpdate) (registry.key 1) with
  | None, None => True
  | Some e, Some e' =>
      exists d, e' = registry.setState e (entity.setAnimationDelay (registry.state e) d)
  | _, _ => False
  end.
Proof.
  apply (RegistryFacts.Update_keeps_registry dt visitBoth system2 (fst afterUpdate)
           0 (snd afterUpdate) (registry.key 1)).
  rewrite <- surjective_pairing. apply orElse_ok. vm_compute. reflexivity.
Defined.

Lemma renderCharacter_command_order_witness :
  (exists s1 s2 s3 shadow shield body head,
     emission.emits dt AttachmentShadow (start (knight 3 0)) shadow s1 /\
     emission.emits dt AttachmentShield s1 shield s2 /\
     emission.emits dt AttachmentBody s2 body s3 /\
     emission.emits dt AttachmentHead s3 head afterKnight /\
     system.sprite afterKnight = [] ++ shadow ++ shield ++ body ++ head) /\
  (exists s1 s2 s3 shadow body head shield,
     emission.emits dt AttachmentShadow (start (knight 0 0)) shadow s1 /\
     emission.emits dt AttachmentBody s1 body s2 /\
     emission.emits dt AttachmentHead s2 head s3 /\
     emission.emits dt AttachmentShield s3 shield lineup.afterFrontKnight /\
     system.sprite lineup.afterFrontKnight = [] ++ shadow ++ body ++ head ++ shield).
Proof.
  assert (Hdead : StandBy <> Dead) by (vm_compute; discriminate).
  assert (Hsit : StandBy <> Sitting) by (vm_compute; discriminate).
  split.
  - destruct (AttachmentFacts.renderCharacter_command_order dt (knight 3 0) [] 0
                Hdead Hsit eq_refl eq_refl) as [Hback _].
    destruct (Hback ltac:(vm_compute; reflexivity)) as [_ Hcmds].
    apply Hcmds. apply run_ok. vm_compute. reflexivity.
  - destruct (AttachmentFacts.renderCharacter_command_order dt (knight 0 0) [] 0
                Hdead Hsit eq_refl eq_refl) as [_ Hfront].
    destruct (Hfront ltac:(vm_compute; reflexivity)) as [_ Hcmds].
    apply Hcmds. apply run_ok. vm_compute. reflexivity.
Defined.

End MoreChecks.
